(** * gooseberry-tm: record codec, input boxes and tab state machines

    Shallow embedding of [src/src/entry.rs], [src/src/utility/interactive.rs],
    [src/src/gooseberry_app.rs] and [src/src/app.rs].

    Conventions.
    - A Rust [str]/[String] is a sequence of Unicode scalar values; it is
      modelled as [text := list Z] (one code point per element).
    - [u64] values are [Z] in [0, 2^64); arithmetic overflow on them follows
      Rust's debug semantics (a panic).
    - A [HashMap<u64, _>] is a stdpp [gmap Z _]; a [HashMap<String,String>]
      built with [collect] is an association list in insertion order whose
      lookup returns the last binding (later inserts overwrite earlier ones).
    - Panics ([unwrap] on [None], out-of-range indexing) are the [Panic]
      outcome. *)

From Stdlib Require Import ZArith Lia String Ascii.
From stdpp Require Import gmap list.

Open Scope Z_scope.

Abbreviation text := (list Z).

(** String literals of the source, as code points. *)
Definition txt (s : string) : text :=
  map (fun a => Z.of_N (N_of_ascii a)) (list_ascii_of_string s).

(* ------------------------------------------------------------------ *)
(** ** [str] methods used by the code *)

(** [char::is_whitespace]: the Unicode [White_Space] property. *)
Definition is_whitespace (c : Z) : bool :=
  ((9 <=? c) && (c <=? 13)) || (c =? 32) || (c =? 133) || (c =? 160)
  || (c =? 5760) || ((8192 <=? c) && (c <=? 8202)) || (c =? 8232)
  || (c =? 8233) || (c =? 8239) || (c =? 8287) || (c =? 12288).

(** [str::trim_start] (chrono calls it [trim_left]). *)
Fixpoint trim_start (s : text) : text :=
  match s with
  | [] => []
  | c :: s' => if is_whitespace c then trim_start s' else s
  end.

Definition trim_end (s : text) : text := rev (trim_start (rev s)).

(** [str::trim]. *)
Definition trim (s : text) : text := trim_end (trim_start s).

(** [str::split] with a [char] pattern. *)
Fixpoint split_char_go (c : Z) (s cur : text) : list text :=
  match s with
  | [] => [rev cur]
  | x :: s' =>
      if x =? c then rev cur :: split_char_go c s' []
      else split_char_go c s' (x :: cur)
  end.

Definition split_char (c : Z) (s : text) : list text := split_char_go c s [].

(** [str::split(": ")]: leftmost non-overlapping occurrences of the
    two-character pattern [':' ' ']. *)
Fixpoint split_cs_go (s cur : text) : list text :=
  match s with
  | [] => [rev cur]
  | x :: s' =>
      match s' with
      | y :: s'' =>
          if (x =? 58) && (y =? 32) then rev cur :: split_cs_go s'' []
          else split_cs_go s' (x :: cur)
      | [] => split_cs_go s' (x :: cur)
      end
  end.

Definition split_cs (s : text) : list text := split_cs_go s [].

(** [<[String]>::join(sep)]. *)
Fixpoint join (sep : text) (l : list text) : text :=
  match l with
  | [] => []
  | [x] => x
  | x :: l' => x ++ sep ++ join sep l'
  end.

(** Length in bytes of the UTF-8 encoding ([str::len]). *)
Definition utf8_len (c : Z) : nat :=
  if c <? 128 then 1 else if c <? 2048 then 2 else if c <? 65536 then 3 else 4.

Definition byte_len (s : text) : nat := list_sum (map utf8_len s).

Definition is_digit (c : Z) : bool := (48 <=? c) && (c <=? 57).

(** [==] on strings. *)
Fixpoint text_eqb (a b : text) : bool :=
  match a, b with
  | [], [] => true
  | x :: a', y :: b' => (x =? y) && text_eqb a' b'
  | _, _ => false
  end.

(** No occurrence of the pattern [": "]: [split(": ")] leaves such a string
    whole. *)
Fixpoint no_cs (s : text) : bool :=
  match s with
  | x :: ((y :: _) as s') => negb ((x =? 58) && (y =? 32)) && no_cs s'
  | _ => true
  end.

(* ------------------------------------------------------------------ *)
(** ** Decimal formatting ([Display] for integers) *)

Fixpoint digits_fuel (fuel : nat) (n : Z) : text :=
  match fuel with
  | O => [48 + n]
  | S f => if n <? 10 then [48 + n] else digits_fuel f (n / 10) ++ [48 + n mod 10]
  end.

Definition fuel_of (n : Z) : nat := S (Z.to_nat (Z.log2 n)).

(** [format!("{}", n)] for [n >= 0]. *)
Definition digits (n : Z) : text := digits_fuel (fuel_of n) n.

(** Right alignment to width [w] with fill character [p]. *)
Definition pad_left (p : Z) (w : nat) (s : text) : text :=
  repeat p (w - length s) ++ s.


(** [<u64 as FromStr>::from_str] ([from_str_radix] with radix 10): an
    optional ['+'], then at least one digit, value below [2^64]. *)
Fixpoint parse_digits_u64 (ds : text) (acc : Z) : option Z :=
  match ds with
  | [] => Some acc
  | c :: ds' =>
      if is_digit c then
        let acc' := acc * 10 + (c - 48) in
        if 2 ^ 64 <=? acc' then None else parse_digits_u64 ds' acc'
      else None
  end.

Definition parse_u64 (s : text) : option Z :=
  match s with
  | [] => None
  | c :: ds =>
      if c =? 43 then
        match ds with [] => None | _ => parse_digits_u64 ds 0 end
      else parse_digits_u64 s 0
  end.

(** [<bool as FromStr>::from_str]: exactly "true" or "false". *)
Definition parse_bool (s : text) : option bool :=
  if text_eqb s (txt "true") then Some true
  else if text_eqb s (txt "false") then Some false
  else None.

Definition show_bool (b : bool) : text := if b then txt "true" else txt "false".

(* ------------------------------------------------------------------ *)
(** ** Timestamps: chrono's [DateTime<Utc>] with the format ["%v %r"]

    The codec formats timestamps with [datetime.format("%v %r")] and reads
    them back with [NaiveDateTime::parse_from_str(_, "%v %r")]. Below is
    chrono's behaviour for exactly these items:
    [%v] = [%e-%b-%Y] (space-padded day, short month name, year) and
    [%r] = [%I:%M:%S %p] (12-hour clock, minutes, seconds, AM/PM). *)

Record datetime := mkdt {
  dt_year : Z; dt_month : Z; dt_day : Z;
  dt_hour : Z; dt_minute : Z; dt_second : Z; dt_nano : Z }.

Definition is_leap (y : Z) : bool :=
  ((y mod 4 =? 0) && negb (y mod 100 =? 0)) || (y mod 400 =? 0).

Definition days_in_month (y m : Z) : Z :=
  if (m =? 2) then (if is_leap y then 29 else 28)
  else if (m =? 4) || (m =? 6) || (m =? 9) || (m =? 11) then 30 else 31.

(** chrono's [MIN_YEAR] and [MAX_YEAR] ([i32::MIN >> 13], [i32::MAX >> 13]). *)
Definition MIN_YEAR : Z := -262144.
Definition MAX_YEAR : Z := 262143.

(** [NaiveDate::from_ymd_opt] succeeds. *)
Definition valid_ymd (y m d : Z) : bool :=
  (MIN_YEAR <=? y) && (y <=? MAX_YEAR) && (1 <=? m) && (m <=? 12)
  && (1 <=? d) && (d <=? days_in_month y m).

Definition month_names : list text :=
  Eval vm_compute in map txt
    ["Jan"; "Feb"; "Mar"; "Apr"; "May"; "Jun"; "Jul"; "Aug"; "Sep"; "Oct"; "Nov"; "Dec"]%string.

(** [%b]. *)
Definition short_month_name (m : Z) : text :=
  nth (Z.to_nat (m - 1)) month_names [].

(** [%Y]: four zero-padded digits for years 0..9999, otherwise an explicit
    sign and at least four digits ([{:+05}]). *)
Definition fmt_year (y : Z) : text :=
  if (0 <=? y) && (y <? 10000) then pad_left 48 4 (digits y)
  else (if y <? 0 then 45 else 43) :: pad_left 48 4 (digits (Z.abs y)).

(** [NaiveTime::hour12]: (is PM, hour on the 12-hour clock). *)
Definition hour12 (h : Z) : bool * Z :=
  (12 <=? h, if h mod 12 =? 0 then 12 else h mod 12).

(** [DateTime::format("%v %r")]. *)
Definition format_v_r (dt : datetime) : text :=
  pad_left 32 2 (digits (dt_day dt)) ++ [45] ++ short_month_name (dt_month dt)
  ++ [45] ++ fmt_year (dt_year dt) ++ [32]
  ++ pad_left 48 2 (digits (snd (hour12 (dt_hour dt)))) ++ [58]
  ++ pad_left 48 2 (digits (dt_minute dt)) ++ [58]
  ++ pad_left 48 2 (digits (dt_second dt + dt_nano dt / 1000000000)) ++ [32]
  ++ (if fst (hour12 (dt_hour dt)) then [80; 77] else [65; 77]).

(** chrono's [ParseErrorKind]. *)
Inductive parse_error_kind :=
  OutOfRange | Impossible | NotEnough | Invalid | TooShort | TooLong | BadFormat.

(** Parsing items of ["%v %r"]; the padding of numeric items plays no role
    when parsing. *)
Inductive numeric := NDay | NYear | NHour12 | NMinute | NSecond.
Inductive fixed := ShortMonthName | UpperAmPm.
Inductive item := ILit (s : text) | ISpace | INum (n : numeric) | IFix (f : fixed).

Definition items_v_r : list item :=
  [INum NDay; ILit [45]; IFix ShortMonthName; ILit [45]; INum NYear; ISpace;
   INum NHour12; ILit [58]; INum NMinute; ILit [58]; INum NSecond; ISpace;
   IFix UpperAmPm].

(** chrono's [Parsed], restricted to the fields these items set. *)
Record parsed := mkparsed {
  p_year : option Z; p_month : option Z; p_day : option Z;
  p_hour_div_12 : option Z; p_hour_mod_12 : option Z;
  p_minute : option Z; p_second : option Z }.

Definition parsed_empty : parsed := mkparsed None None None None None None None.

Abbreviation presult A := (parse_error_kind + A)%type.

(** [set_if_consistent]. *)
Definition set_if_consistent (old : option Z) (v : Z) : presult (option Z) :=
  match old with
  | Some w => if w =? v then inr (Some v) else inl Impossible
  | None => inr (Some v)
  end.

Definition to_u32 (v : Z) : presult Z :=
  if (0 <=? v) && (v <? 2 ^ 32) then inr v else inl OutOfRange.
Definition to_i32 (v : Z) : presult Z :=
  if (- 2 ^ 31 <=? v) && (v <? 2 ^ 31) then inr v else inl OutOfRange.

Definition i64_max : Z := 2 ^ 63 - 1.

(** [scan::number(s, 1, max)]: at most [max] leading ASCII digits, at least
    one. *)
Fixpoint scan_go (k : nat) (s : text) (i : nat) (n : Z) : presult (text * Z) :=
  match k with
  | O => inr (s, n)
  | S k' =>
      match s with
      | [] => inr ([], n)
      | c :: s' =>
          if is_digit c then
            let n' := n * 10 + (c - 48) in
            if i64_max <? n' then inl OutOfRange else scan_go k' s' (S i) n'
          else if (i =? 0)%nat then inl Invalid else inr (s, n)
      end
  end.

Definition scan_number (s : text) (max : nat) : presult (text * Z) :=
  match s with
  | [] => inl TooShort
  | _ => scan_go max s 0 0
  end.

(** [(width, signed)] of each numeric item. *)
Definition numeric_width (n : numeric) : nat * bool :=
  match n with
  | NYear => (4%nat, true)
  | _ => (2%nat, false)
  end.

Definition with_year (p : parsed) (o : option Z) : parsed :=
  mkparsed o (p_month p) (p_day p) (p_hour_div_12 p) (p_hour_mod_12 p) (p_minute p) (p_second p).
Definition with_month (p : parsed) (o : option Z) : parsed :=
  mkparsed (p_year p) o (p_day p) (p_hour_div_12 p) (p_hour_mod_12 p) (p_minute p) (p_second p).
Definition with_day (p : parsed) (o : option Z) : parsed :=
  mkparsed (p_year p) (p_month p) o (p_hour_div_12 p) (p_hour_mod_12 p) (p_minute p) (p_second p).
Definition with_hour_div_12 (p : parsed) (o : option Z) : parsed :=
  mkparsed (p_year p) (p_month p) (p_day p) o (p_hour_mod_12 p) (p_minute p) (p_second p).
Definition with_hour_mod_12 (p : parsed) (o : option Z) : parsed :=
  mkparsed (p_year p) (p_month p) (p_day p) (p_hour_div_12 p) o (p_minute p) (p_second p).
Definition with_minute (p : parsed) (o : option Z) : parsed :=
  mkparsed (p_year p) (p_month p) (p_day p) (p_hour_div_12 p) (p_hour_mod_12 p) o (p_second p).
Definition with_second (p : parsed) (o : option Z) : parsed :=
  mkparsed (p_year p) (p_month p) (p_day p) (p_hour_div_12 p) (p_hour_mod_12 p) (p_minute p) o.

(** [Parsed::set_*]: a range conversion, then [set_if_consistent]. *)
Definition set_field (conv : Z -> presult Z) (get : parsed -> option Z)
    (upd : parsed -> option Z -> parsed) (p : parsed) (v : Z) : presult parsed :=
  match conv v with
  | inl e => inl e
  | inr v' =>
      match set_if_consistent (get p) v' with
      | inl e => inl e
      | inr o => inr (upd p o)
      end
  end.

Definition set_numeric (n : numeric) (p : parsed) (v : Z) : presult parsed :=
  match n with
  | NYear => set_field to_i32 p_year with_year p v
  | NDay => set_field to_u32 p_day with_day p v
  | NHour12 =>
      if (v <? 1) || (12 <? v) then inl OutOfRange
      else set_field inr p_hour_mod_12 with_hour_mod_12 p (v mod 12)
  | NMinute => set_field to_u32 p_minute with_minute p v
  | NSecond => set_field to_u32 p_second with_second p v
  end.

(** Leading characters of [s] with ASCII case folding ([b | 32]); a
    non-ASCII character never folds onto a letter. *)
Definition fold_ascii (c : Z) : Z := if c <? 128 then Z.lor c 32 else 256.

Definition month_names_lower : list text :=
  Eval vm_compute in map txt
    ["jan"; "feb"; "mar"; "apr"; "may"; "jun"; "jul"; "aug"; "sep"; "oct"; "nov"; "dec"]%string.

Fixpoint index_of (x : text) (l : list text) (i : Z) : option Z :=
  match l with
  | [] => None
  | y :: l' => if text_eqb x y then Some i else index_of x l' (i + 1)
  end.

(** [scan::short_month0]. *)
Definition short_month0 (s : text) : presult (text * Z) :=
  if (byte_len s <? 3)%nat then inl TooShort
  else match index_of (map fold_ascii (take 3 s)) month_names_lower 0 with
       | Some m0 => inr (drop 3 s, m0)
       | None => inl Invalid
       end.

(** One item of [format::parse]. *)
Definition parse_item (it : item) (p : parsed) (s : text) : presult (parsed * text) :=
  match it with
  | ILit pre =>
      if (byte_len s <? byte_len pre)%nat then inl TooShort
      else if text_eqb (take (length pre) s) pre then inr (p, drop (length pre) s)
      else inl Invalid
  | ISpace => inr (p, trim_start s)
  | INum n =>
      let s := trim_start s in
      let '(w, signed) := numeric_width n in
      let scanned :=
        if signed then
          match s with
          | c :: s' =>
              if c =? 45 then
                match scan_number s' (length s') with
                | inl e => inl e
                | inr (r, v) => inr (r, 0 - v)
                end
              else if c =? 43 then scan_number s' (length s')
              else scan_number s w
          | [] => scan_number s w
          end
        else scan_number s w in
      match scanned with
      | inl e => inl e
      | inr (r, v) =>
          match set_numeric n p v with
          | inl e => inl e
          | inr p' => inr (p', r)
          end
      end
  | IFix ShortMonthName =>
      match short_month0 s with
      | inl e => inl e
      | inr (r, m0) =>
          match set_field to_u32 p_month with_month p (m0 + 1) with
          | inl e => inl e
          | inr p' => inr (p', r)
          end
      end
  | IFix UpperAmPm =>
      if (byte_len s <? 2)%nat then inl TooShort
      else
        let ampm :=
          if text_eqb (map fold_ascii (take 2 s)) [97; 109] then Some 0
          else if text_eqb (map fold_ascii (take 2 s)) [112; 109] then Some 1
          else None in
        match ampm with
        | None => inl Invalid
        | Some b =>
            match set_if_consistent (p_hour_div_12 p) b with
            | inl e => inl e
            | inr o => inr (with_hour_div_12 p o, drop 2 s)
            end
        end
  end.

(** [format::parse]: all items, then nothing may be left over. *)
Fixpoint parse_items (its : list item) (p : parsed) (s : text) : presult parsed :=
  match its with
  | [] => match s with [] => inr p | _ => inl TooLong end
  | it :: its' =>
      match parse_item it p s with
      | inl e => inl e
      | inr (p', s') => parse_items its' p' s'
      end
  end.

(** [Parsed::to_naive_date] when year, month and day are given. *)
Definition to_naive_date (p : parsed) : presult (Z * Z * Z) :=
  match p_year p, p_month p, p_day p with
  | Some y, Some m, Some d =>
      if valid_ymd y m d then inr (y, m, d) else inl OutOfRange
  | _, _, _ => inl NotEnough
  end.

(** [Parsed::to_naive_time] (no nanosecond field is ever set here). *)
Definition to_naive_time (p : parsed) : presult (Z * Z * Z * Z) :=
  match p_hour_div_12 p with
  | None => inl NotEnough
  | Some hd =>
    if negb ((0 <=? hd) && (hd <=? 1)) then inl OutOfRange else
    match p_hour_mod_12 p with
    | None => inl NotEnough
    | Some hm =>
      if negb ((0 <=? hm) && (hm <=? 11)) then inl OutOfRange else
      match p_minute p with
      | None => inl NotEnough
      | Some mi =>
        if negb ((0 <=? mi) && (mi <=? 59)) then inl OutOfRange else
        let sec := match p_second p with Some v => v | None => 0 end in
        if (0 <=? sec) && (sec <=? 59) then inr (hd * 12 + hm, mi, sec, 0)
        else if sec =? 60 then inr (hd * 12 + hm, mi, 59, 1000000000)
        else inl OutOfRange
      end
    end
  end.

(** [NaiveDateTime::parse_from_str(s, "%v %r")], then [DateTime::from_utc]. *)
Definition parse_v_r (s : text) : presult datetime :=
  match parse_items items_v_r parsed_empty s with
  | inl e => inl e
  | inr p =>
      match to_naive_date p, to_naive_time p with
      | inr (y, m, d), inr (h, mi, sec, ns) => inr (mkdt y m d h mi sec ns)
      | inl e, _ => inl e
      | _, inl e => inl e
      end
  end.


(* ------------------------------------------------------------------ *)
(** ** Entries ([entry.rs]) *)

Inductive GooseberryEntryType := Task | Research | Journal | Event.

#[global] Instance entry_type_eq_dec : EqDecision GooseberryEntryType.
Proof. solve_decision. Defined.

(** [impl Display for GooseberryEntryType]. *)
Definition entry_type_name (t : GooseberryEntryType) : text :=
  match t with
  | Task => txt "Task" | Journal => txt "Journal"
  | Research => txt "Research" | Event => txt "Event"
  end.

Record TaskEntry := mk_task {
  t_id : Z; t_task : text; t_description : text; t_datetime : datetime;
  t_done : bool; t_tags : list text }.

Record JournalEntry := mk_journal {
  j_id : Z; j_description : text; j_datetime : datetime; j_tags : list text }.

Record ResearchEntry := mk_research {
  r_id : Z; r_title : text; r_notes : text; r_datetime : datetime;
  r_tags : list text }.

Record EventEntry := mk_event {
  e_id : Z; e_title : text; e_people : list text; e_datetime : datetime;
  e_notes : text; e_tags : list text }.

Inductive GooseberryEntry :=
  | GTask (e : TaskEntry)
  | GJournal (e : JournalEntry)
  | GResearch (e : ResearchEntry)
  | GEvent (e : EventEntry).

Definition entry_id (g : GooseberryEntry) : Z :=
  match g with
  | GTask e => t_id e | GJournal e => j_id e
  | GResearch e => r_id e | GEvent e => e_id e
  end.

Definition entry_datetime (g : GooseberryEntry) : datetime :=
  match g with
  | GTask e => t_datetime e | GJournal e => j_datetime e
  | GResearch e => r_datetime e | GEvent e => e_datetime e
  end.

Definition entry_tags (g : GooseberryEntry) : list text :=
  match g with
  | GTask e => t_tags e | GJournal e => j_tags e
  | GResearch e => r_tags e | GEvent e => e_tags e
  end.

Definition entry_kind (g : GooseberryEntry) : GooseberryEntryType :=
  match g with
  | GTask _ => Task | GJournal _ => Journal
  | GResearch _ => Research | GEvent _ => Event
  end.

(** Errors: [Sorry] and the parse errors that [?] converts into
    [anyhow::Error]. *)
Inductive error :=
  | UnknownEntryType (s : text)
  | MissingEntryID (t : GooseberryEntryType) (id : Z)
  (* the variant [gooseberry_app.rs] names for the same situation *)
  | WrongEntryID (t : GooseberryEntryType) (id : Z)
  | MissingHeader
  | MissingHeaderElement (element : text)
  | WrongEntryType (expected got : GooseberryEntryType)
  | OutOfCheeseError (message : text)
  | ParseIntError
  | ParseBoolError
  | ChronoParseError (k : parse_error_kind)
  | IoError.

(** Outcome of a call: a value, an [Err] returned through [?], or a panic. *)
Inductive res (A : Type) :=
  | Ok (a : A)
  | Err (e : error)
  | Panic.
Arguments Ok {A} a.
Arguments Err {A} e.
Arguments Panic {A}.

Definition rbind {A B} (m : res A) (k : A -> res B) : res B :=
  match m with
  | Ok a => k a
  | Err e => Err e
  | Panic => Panic
  end.

Notation "x <- m ;; k" := (rbind m (fun x => k))
  (at level 100, m at next level, right associativity).

Definition ok_or {A} (o : option A) (e : error) : res A :=
  match o with Some a => Ok a | None => Err e end.

Definition HEADER_MARK : text := Eval vm_compute in txt "---".

Definition NL : text := [10].

(** [format_id_datetime_tags]. *)
Definition format_id_datetime_tags (t : GooseberryEntryType) (id : Z) (dt : datetime)
    (tags : list text) : text :=
  txt "Type: " ++ entry_type_name t ++ NL ++ txt "ID: " ++ digits id ++ NL
  ++ txt "DateTime: " ++ format_v_r dt ++ NL ++ txt "Tags: " ++ join (txt ", ") tags.

(** The text [to_file] writes for each variant. *)
Definition encode (g : GooseberryEntry) : text :=
  match g with
  | GTask e =>
      HEADER_MARK ++ NL
      ++ format_id_datetime_tags Task (t_id e) (t_datetime e) (t_tags e) ++ NL
      ++ txt "Task: " ++ t_task e ++ NL ++ txt "Done: " ++ show_bool (t_done e) ++ NL
      ++ HEADER_MARK ++ NL ++ t_description e
  | GJournal e =>
      HEADER_MARK ++ NL
      ++ format_id_datetime_tags Journal (j_id e) (j_datetime e) (j_tags e) ++ NL
      ++ HEADER_MARK ++ NL ++ j_description e
  | GResearch e =>
      HEADER_MARK ++ NL
      ++ format_id_datetime_tags Research (r_id e) (r_datetime e) (r_tags e) ++ NL
      ++ txt "Title: " ++ r_title e ++ NL
      ++ HEADER_MARK ++ NL ++ r_notes e
  | GEvent e =>
      HEADER_MARK ++ NL
      ++ format_id_datetime_tags Event (e_id e) (e_datetime e) (e_tags e) ++ NL
      ++ txt "Title: " ++ e_title e ++ NL ++ txt "People: " ++ join (txt ", ") (e_people e) ++ NL
      ++ HEADER_MARK ++ NL ++ e_notes e
  end.

(** The header map: [(key, value)] pairs in line order; [get] returns the
    last binding, as [collect::<HashMap<_,_>>] keeps the last insert. *)
Abbreviation header := (list (text * text)).

Definition header_get (k : text) (h : header) : option text :=
  fold_left (fun acc kv => if text_eqb kv.1 k then Some kv.2 else acc) h None.

(** The [loop] of [consume_markdown_header] after the opening mark: header
    lines up to the closing mark, and the lines after it. Running out of
    lines is [lines.next().unwrap()] on [None]. *)
Fixpoint take_header (ls : list text) : res (list text * list text) :=
  match ls with
  | [] => Panic
  | l :: ls' =>
      if text_eqb l HEADER_MARK then Ok ([], ls')
      else hl <- take_header ls' ;; Ok (l :: hl.1, hl.2)
  end.

(** [let parts = line.split(": ").collect(); (parts[0], parts[1])]. *)
Definition header_pair (line : text) : res (text * text) :=
  match split_cs line with
  | k :: v :: _ => Ok (k, v)
  | _ => Panic
  end.

Fixpoint map_res {A B} (f : A -> res B) (l : list A) : res (list B) :=
  match l with
  | [] => Ok []
  | x :: l' => y <- f x ;; ys <- map_res f l' ;; Ok (y :: ys)
  end.

(** [consume_markdown_header]. *)
Definition consume_markdown_header (ls : list text) : res (header * list text) :=
  match ls with
  | [] => Panic
  | first :: rest =>
      if negb (text_eqb first HEADER_MARK) then Err MissingHeader
      else hl <- take_header rest ;;
           h <- map_res header_pair hl.1 ;;
           Ok (h, hl.2)
  end.

(** [get_header_lines] on the file content. *)
Definition get_header_lines (content : text) : res (header * text) :=
  hr <- consume_markdown_header (split_char 10 content) ;;
  Ok (hr.1, join NL hr.2).

(** [s.split(',').map(|t| t.trim().to_owned()).collect()]. *)
Definition split_list (s : text) : list text := map trim (split_char 44 s).

Definition get_elem (h : header) (k : text) : res text :=
  ok_or (header_get k h) (MissingHeaderElement k).

(** [get_id_datetime_tags]. *)
Definition get_id_datetime_tags (h : header) : res (Z * datetime * list text) :=
  sid <- get_elem h (txt "ID") ;;
  id <- ok_or (parse_u64 sid) ParseIntError ;;
  sdt <- get_elem h (txt "DateTime") ;;
  dt <- match parse_v_r (trim sdt) with
        | inl k => Err (ChronoParseError k)
        | inr d => Ok d
        end ;;
  stags <- get_elem h (txt "Tags") ;;
  Ok (id, dt, split_list stags).

(** [FromStr for GooseberryEntryType]. *)
Definition parse_entry_type (s : text) : res GooseberryEntryType :=
  let s' := trim s in
  if text_eqb s' (txt "Task") then Ok Task
  else if text_eqb s' (txt "Research") then Ok Research
  else if text_eqb s' (txt "Journal") then Ok Journal
  else if text_eqb s' (txt "Event") then Ok Event
  else Err (UnknownEntryType s).

(** [GooseberryEntry::from_header_lines] and the per-variant ones. *)
Definition from_header_lines (h : header) (lines : text) : res GooseberryEntry :=
  st <- get_elem h (txt "Type") ;;
  t <- parse_entry_type st ;;
  match t with
  | Task =>
      idt <- get_id_datetime_tags h ;;
      task <- get_elem h (txt "Task") ;;
      sdone <- get_elem h (txt "Done") ;;
      done <- ok_or (parse_bool (trim sdone)) ParseBoolError ;;
      Ok (GTask (mk_task idt.1.1 (trim task) lines idt.1.2 done idt.2))
  | Research =>
      idt <- get_id_datetime_tags h ;;
      title <- get_elem h (txt "Title") ;;
      Ok (GResearch (mk_research idt.1.1 (trim title) lines idt.1.2 idt.2))
  | Journal =>
      idt <- get_id_datetime_tags h ;;
      Ok (GJournal (mk_journal idt.1.1 lines idt.1.2 idt.2))
  | Event =>
      idt <- get_id_datetime_tags h ;;
      title <- get_elem h (txt "Title") ;;
      people <- get_elem h (txt "People") ;;
      Ok (GEvent (mk_event idt.1.1 (trim title) (split_list people) idt.1.2 lines idt.2))
  end.

(** [GooseberryEntry::from_file] on the file's content. *)
Definition decode (content : text) : res GooseberryEntry :=
  hl <- get_header_lines content ;;
  from_header_lines hl.1 hl.2.





(** A header key as [to_file] writes them: not starting with ['-'], without
    [':'] or ['\n']. *)
Definition key_ok (k : text) : bool :=
  match k with [] => false | c :: _ => negb (c =? 45) end
  && forallb (fun c => negb (c =? 58) && negb (c =? 10)) k.


(* ------------------------------------------------------------------ *)
(** ** Input boxes ([utility/interactive.rs]) *)

Record InputBox := mk_box {
  ib_title : text; ib_is_writing : bool; ib_content : text;
  ib_markdown : bool; ib_percent : Z; ib_scroll : Z }.

Record InputBoxes := mk_boxes { ibs_boxes : list InputBox; ibs_index : nat }.

(** crossterm's [KeyEvent], with [char]s as code points. *)
Inductive key_event :=
  | Char (c : Z) | Ctrl (c : Z) | Backspace | Up | Down | Left | Right | Esc
  | OtherKey.

Definition InputBox_new (title : text) (markdown : bool) (percent : Z) : InputBox :=
  mk_box title false [] markdown percent 0.

Definition set_is_writing (b : bool) (x : InputBox) : InputBox :=
  mk_box (ib_title x) b (ib_content x) (ib_markdown x) (ib_percent x) (ib_scroll x).
Definition set_content (c : text) (x : InputBox) : InputBox :=
  mk_box (ib_title x) (ib_is_writing x) c (ib_markdown x) (ib_percent x) (ib_scroll x).
Definition set_scroll (n : Z) (x : InputBox) : InputBox :=
  mk_box (ib_title x) (ib_is_writing x) (ib_content x) (ib_markdown x) (ib_percent x) n.

(** [self.boxes[i] = f(self.boxes[i])]; an index out of range panics. *)
Definition box_update (i : nat) (f : InputBox -> InputBox) (ibs : InputBoxes)
    : res InputBoxes :=
  if (i <? length (ibs_boxes ibs))%nat
  then Ok (mk_boxes (alter f i (ibs_boxes ibs)) (ibs_index ibs))
  else Panic.

Definition box_get (i : nat) (ibs : InputBoxes) : res InputBox :=
  match ibs_boxes ibs !! i with Some b => Ok b | None => Panic end.

(** [InputBoxes::stop_writing]. *)
Definition stop_writing (ibs : InputBoxes) : InputBoxes :=
  mk_boxes (map (set_is_writing false) (ibs_boxes ibs)) 0.

(** [InputBoxes::start_writing]. *)
Definition start_writing (ibs : InputBoxes) : res InputBoxes :=
  box_update 0 (set_is_writing true) (stop_writing ibs).

(** [InputBoxes::new]. *)
Definition InputBoxes_new (bs : list InputBox) : res InputBoxes :=
  start_writing (mk_boxes bs 0).

(** [InputBoxes::replace_content]. *)
Definition replace_content (i : nat) (c : text) (ibs : InputBoxes) : res InputBoxes :=
  box_update i (set_content c) ibs.

(** [InputBoxes::save]: the boxes as they were, then every content cleared
    and writing stopped. *)
Definition save (ibs : InputBoxes) : InputBoxes * list InputBox :=
  (stop_writing (mk_boxes (map (set_content []) (ibs_boxes ibs)) (ibs_index ibs)),
   ibs_boxes ibs).

Definition set_index (i : nat) (ibs : InputBoxes) : InputBoxes :=
  mk_boxes (ibs_boxes ibs) i.

(** [InputBoxes::increment_box]. *)
Definition increment_box (ibs : InputBoxes) : res InputBoxes :=
  ibs1 <- box_update (ibs_index ibs) (set_is_writing false) ibs ;;
  let n := length (ibs_boxes ibs1) in
  if (n =? 0)%nat then Panic
  else box_update ((ibs_index ibs1 + 1) mod n)%nat (set_is_writing true)
         (set_index ((ibs_index ibs1 + 1) mod n)%nat ibs1).

(** [InputBoxes::decrement_box]. *)
Definition decrement_box (ibs : InputBoxes) : res InputBoxes :=
  ibs1 <- box_update (ibs_index ibs) (set_is_writing false) ibs ;;
  let i := if (0 <? ibs_index ibs1)%nat then (ibs_index ibs1 - 1)%nat
           else (length (ibs_boxes ibs1) - 1)%nat in
  box_update i (set_is_writing true) (set_index i ibs1).

(** [InputBoxes::keypress]: the new boxes, and
    (a potential new entry to save, whether to stop writing mode). *)
Definition ib_keypress (key : key_event) (ibs : InputBoxes)
    : res (InputBoxes * (option (list InputBox) * bool)) :=
  match key with
  | Ctrl c =>
      if c =? 115 then let '(ibs', bs) := save ibs in Ok (ibs', (Some bs, true))
      else if c =? 110 then ibs' <- increment_box ibs ;; Ok (ibs', (None, false))
      else if c =? 98 then ibs' <- decrement_box ibs ;; Ok (ibs', (None, false))
      else Ok (ibs, (None, false))
  | Char c =>
      b <- box_get (ibs_index ibs) ibs ;;
      if negb (ib_markdown b) && (c =? 10) then
        ibs' <- increment_box ibs ;; Ok (ibs', (None, false))
      else
        ibs' <- box_update (ibs_index ibs) (fun x => set_content (ib_content x ++ [c]) x) ibs ;;
        Ok (ibs', (None, false))
  | Backspace =>
      ibs' <- box_update (ibs_index ibs)
                (fun x => set_content (removelast (ib_content x)) x) ibs ;;
      Ok (ibs', (None, false))
  | Up =>
      b <- box_get (ibs_index ibs) ibs ;;
      if 0 <? ib_scroll b then
        ibs' <- box_update (ibs_index ibs) (fun x => set_scroll (ib_scroll x - 1) x) ibs ;;
        Ok (ibs', (None, false))
      else Ok (ibs, (None, false))
  | Down =>
      b <- box_get (ibs_index ibs) ibs ;;
      if ib_scroll b =? 65535 then Panic
      else
        ibs' <- box_update (ibs_index ibs) (fun x => set_scroll (ib_scroll x + 1) x) ibs ;;
        Ok (ibs', (None, false))
  | Esc => Ok (stop_writing ibs, (None, true))
  | _ => Ok (ibs, (None, false))
  end.

(* ------------------------------------------------------------------ *)
(** ** Entries and input boxes ([entry.rs]) *)

(** [GooseberryEntryType::get_input_boxes]. *)
Definition get_input_boxes (t : GooseberryEntryType) : res InputBoxes :=
  InputBoxes_new
    match t with
    | Task => [InputBox_new (txt "Task") false 10; InputBox_new (txt "Description") true 60;
               InputBox_new (txt "Tags") false 10]
    | Journal => [InputBox_new (txt "Description") false 10; InputBox_new (txt "Tags") false 10]
    | Research => [InputBox_new (txt "Title") false 10; InputBox_new (txt "Notes") true 60;
                   InputBox_new (txt "Tags") false 10]
    | Event => [InputBox_new (txt "Title") false 10; InputBox_new (txt "Notes") true 50;
                InputBox_new (txt "People") false 10; InputBox_new (txt "Tags") false 10]
    end.

(** [boxes[i].get_content()]; out of range panics. *)
Definition content_at (bs : list InputBox) (i : nat) : res text :=
  match bs !! i with Some b => Ok (ib_content b) | None => Panic end.

(** [GooseberryEntry::from_input_boxes]; [now] is the value of [Utc::now()]. *)
Definition from_input_boxes (id : Z) (t : GooseberryEntryType) (bs : list InputBox)
    (now : datetime) : res GooseberryEntry :=
  match t with
  | Task =>
      task <- content_at bs 0 ;; description <- content_at bs 1 ;;
      tags <- content_at bs 2 ;;
      Ok (GTask (mk_task id task description now false (split_list tags)))
  | Journal =>
      description <- content_at bs 0 ;; tags <- content_at bs 1 ;;
      Ok (GJournal (mk_journal id description now (split_list tags)))
  | Research =>
      title <- content_at bs 0 ;; notes <- content_at bs 1 ;;
      tags <- content_at bs 2 ;;
      Ok (GResearch (mk_research id title notes now (split_list tags)))
  | Event =>
      title <- content_at bs 0 ;; notes <- content_at bs 1 ;;
      people <- content_at bs 2 ;; tags <- content_at bs 3 ;;
      Ok (GEvent (mk_event id title (split_list people) now notes (split_list tags)))
  end.

(** [to_input_boxes] of each variant. *)
Definition to_input_boxes (g : GooseberryEntry) : res InputBoxes :=
  ibs <- get_input_boxes (entry_kind g) ;;
  match g with
  | GTask e =>
      ibs <- replace_content 0 (t_task e) ibs ;;
      ibs <- replace_content 1 (t_description e) ibs ;;
      replace_content 2 (join (txt ", ") (t_tags e)) ibs
  | GJournal e =>
      ibs <- replace_content 0 (j_description e) ibs ;;
      replace_content 1 (join (txt ", ") (j_tags e)) ibs
  | GResearch e =>
      ibs <- replace_content 0 (r_title e) ibs ;;
      ibs <- replace_content 1 (r_notes e) ibs ;;
      replace_content 2 (join (txt ", ") (r_tags e)) ibs
  | GEvent e =>
      ibs <- replace_content 0 (e_title e) ibs ;;
      ibs <- replace_content 1 (e_notes e) ibs ;;
      ibs <- replace_content 2 (join (txt ", ") (e_people e)) ibs ;;
      replace_content 3 (join (txt ", ") (e_tags e)) ibs
  end.

(** [GooseberryEntry::merge_with_entry]: [self] takes the id and the
    timestamp (and, for a task, the done flag) of [old] when both are the
    same variant; otherwise nothing changes. *)
Definition merge_with_entry (self old : GooseberryEntry) : GooseberryEntry :=
  match self, old with
  | GTask e, GTask o =>
      GTask (mk_task (t_id o) (t_task e) (t_description e) (t_datetime o) (t_done o) (t_tags e))
  | GJournal e, GJournal o =>
      GJournal (mk_journal (j_id o) (j_description e) (j_datetime o) (j_tags e))
  | GResearch e, GResearch o =>
      GResearch (mk_research (r_id o) (r_title e) (r_notes e) (r_datetime o) (r_tags e))
  | GEvent e, GEvent o =>
      GEvent (mk_event (e_id o) (e_title e) (e_people e) (e_datetime o) (e_notes e) (e_tags e))
  | _, _ => self
  end.

(** [TaskEntry::toggle] through [if let GooseberryEntry::Task(t)]. *)
Definition toggle_entry (g : GooseberryEntry) : GooseberryEntry :=
  match g with
  | GTask e => GTask (mk_task (t_id e) (t_task e) (t_description e) (t_datetime e)
                        (negb (t_done e)) (t_tags e))
  | _ => g
  end.

(* ------------------------------------------------------------------ *)
(** ** Storage and the state/error monad of the tabs *)

(** The entry folder: its files by name, and whether writing to it
    succeeds ([PathFile::create], [write_str] and [remove] fail with an I/O
    error otherwise). *)
Record storage := mk_storage { st_writable : bool; st_files : gmap text text }.

(** [GooseberryEntryType::get_file]: [<GooseberryEntryType>_<entry_id>.md]. *)
Definition file_name (t : GooseberryEntryType) (id : Z) : text :=
  entry_type_name t ++ [95] ++ digits id ++ txt ".md".

Definition write_file (name content : text) (s : storage) : res storage :=
  if st_writable s then Ok (mk_storage true (<[name := content]> (st_files s)))
  else Err IoError.

Definition remove_file (name : text) (s : storage) : res storage :=
  if st_writable s then Ok (mk_storage true (delete name (st_files s)))
  else Err IoError.

(** A method on [&mut self] returning [Result]: the state after the call
    (also when it returns [Err]) and its result. *)
Definition M (S A : Type) : Type := S -> S * res A.

Definition mret {S A} (a : A) : M S A := fun s => (s, Ok a).
Definition mbind {S A B} (m : M S A) (k : A -> M S B) : M S B :=
  fun s => let '(s', r) := m s in
           match r with
           | Ok a => k a s'
           | Err e => (s', Err e)
           | Panic => (s', Panic)
           end.
Definition mget {S} : M S S := fun s => (s, Ok s).
Definition mput {S} (s : S) : M S unit := fun _ => (s, Ok tt).
Definition mlift {S A} (r : res A) : M S A := fun s => (s, r).

Notation "'do!' x <- m ;; k" := (mbind m (fun x => k))
  (at level 200, x name, m at level 99, k at level 200).
Notation "m ;;! k" := (mbind m (fun _ => k)) (at level 100, right associativity).

(** [Vec::remove_item]: removes the first occurrence. *)
Fixpoint remove_item (x : Z) (l : list Z) : list Z :=
  match l with
  | [] => []
  | y :: l' => if y =? x then l' else y :: remove_item x l'
  end.

Definition U64_MAX : Z := 2 ^ 64 - 1.

(** [format!("{}{}", selected_entry, c).parse::<u64>()] and
    [c.to_string().parse::<u64>()]. *)
Definition accumulate_digit (selected c : Z) : res Z :=
  if 0 <? selected then ok_or (parse_u64 (digits selected ++ [c])) ParseIntError
  else ok_or (parse_u64 [c]) ParseIntError.

Definition is_digit_key (c : Z) : bool := is_digit c.

(* ------------------------------------------------------------------ *)
(** ** The tab of [gooseberry_app.rs] *)

Module GApp.

Record tab := mk_tab {
  entry_type : GooseberryEntryType;
  fold : bool;
  entries : gmap Z GooseberryEntry;
  visible_ids : list Z;
  is_writing : bool;
  input_boxes : InputBoxes;
  next_id : Z;
  folder : storage;
  scroll : Z;
  picking_char : option Z;
  picking_entry : bool;
  selected_entry : Z;
  editing_id : option Z }.

Definition upd_entry_type (v : GooseberryEntryType) (st : tab) : tab :=
  mk_tab v (fold st) (entries st) (visible_ids st) (is_writing st) (input_boxes st) (next_id st) (folder st) (scroll st) (picking_char st) (picking_entry st) (selected_entry st) (editing_id st).
Definition upd_fold (v : bool) (st : tab) : tab :=
  mk_tab (entry_type st) v (entries st) (visible_ids st) (is_writing st) (input_boxes st) (next_id st) (folder st) (scroll st) (picking_char st) (picking_entry st) (selected_entry st) (editing_id st).
Definition upd_entries (v : gmap Z GooseberryEntry) (st : tab) : tab :=
  mk_tab (entry_type st) (fold st) v (visible_ids st) (is_writing st) (input_boxes st) (next_id st) (folder st) (scroll st) (picking_char st) (picking_entry st) (selected_entry st) (editing_id st).
Definition upd_visible_ids (v : list Z) (st : tab) : tab :=
  mk_tab (entry_type st) (fold st) (entries st) v (is_writing st) (input_boxes st) (next_id st) (folder st) (scroll st) (picking_char st) (picking_entry st) (selected_entry st) (editing_id st).
Definition upd_is_writing (v : bool) (st : tab) : tab :=
  mk_tab (entry_type st) (fold st) (entries st) (visible_ids st) v (input_boxes st) (next_id st) (folder st) (scroll st) (picking_char st) (picking_entry st) (selected_entry st) (editing_id st).
Definition upd_input_boxes (v : InputBoxes) (st : tab) : tab :=
  mk_tab (entry_type st) (fold st) (entries st) (visible_ids st) (is_writing st) v (next_id st) (folder st) (scroll st) (picking_char st) (picking_entry st) (selected_entry st) (editing_id st).
Definition upd_next_id (v : Z) (st : tab) : tab :=
  mk_tab (entry_type st) (fold st) (entries st) (visible_ids st) (is_writing st) (input_boxes st) v (folder st) (scroll st) (picking_char st) (picking_entry st) (selected_entry st) (editing_id st).
Definition upd_folder (v : storage) (st : tab) : tab :=
  mk_tab (entry_type st) (fold st) (entries st) (visible_ids st) (is_writing st) (input_boxes st) (next_id st) v (scroll st) (picking_char st) (picking_entry st) (selected_entry st) (editing_id st).
Definition upd_scroll (v : Z) (st : tab) : tab :=
  mk_tab (entry_type st) (fold st) (entries st) (visible_ids st) (is_writing st) (input_boxes st) (next_id st) (folder st) v (picking_char st) (picking_entry st) (selected_entry st) (editing_id st).
Definition upd_picking_char (v : option Z) (st : tab) : tab :=
  mk_tab (entry_type st) (fold st) (entries st) (visible_ids st) (is_writing st) (input_boxes st) (next_id st) (folder st) (scroll st) v (picking_entry st) (selected_entry st) (editing_id st).
Definition upd_picking_entry (v : bool) (st : tab) : tab :=
  mk_tab (entry_type st) (fold st) (entries st) (visible_ids st) (is_writing st) (input_boxes st) (next_id st) (folder st) (scroll st) (picking_char st) v (selected_entry st) (editing_id st).
Definition upd_selected_entry (v : Z) (st : tab) : tab :=
  mk_tab (entry_type st) (fold st) (entries st) (visible_ids st) (is_writing st) (input_boxes st) (next_id st) (folder st) (scroll st) (picking_char st) (picking_entry st) v (editing_id st).
Definition upd_editing_id (v : option Z) (st : tab) : tab :=
  mk_tab (entry_type st) (fold st) (entries st) (visible_ids st) (is_writing st) (input_boxes st) (next_id st) (folder st) (scroll st) (picking_char st) (picking_entry st) (selected_entry st) v.

(** The loop of [from_folder] over the files the glob returns, in order;
    the first file that fails to decode aborts the load. *)
Fixpoint load_files (fs : list text) (es : gmap Z GooseberryEntry) (vis : list Z)
    : res (gmap Z GooseberryEntry * list Z) :=
  match fs with
  | [] => Ok (es, vis)
  | f :: fs' =>
      g <- decode f ;;
      load_files fs' (<[entry_id g := g]> es) (vis ++ [entry_id g])
  end.

(** [*visible_ids.iter().max().unwrap_or(&0) + 1]. *)
Definition first_free_id (vis : list Z) : res Z :=
  let m := fold_right Z.max 0 vis in
  if m =? U64_MAX then Panic else Ok (m + 1).

Definition modify (f : tab -> tab) : M tab unit := fun st => (f st, Ok tt).

(** [self.next_id += 1]. *)
Definition incr_next_id : M tab unit :=
  do! st <- mget ;;
  if next_id st =? U64_MAX then mlift Panic else modify (upd_next_id (next_id st + 1)).

(** [self.scroll += 1] and [self.scroll -= 1] on the [u16] scroll. *)
Definition scroll_down : M tab unit :=
  do! st <- mget ;;
  if scroll st =? 65535 then mlift Panic else modify (upd_scroll (scroll st + 1)).
Definition scroll_up : M tab unit :=
  do! st <- mget ;;
  if 0 <? scroll st then modify (upd_scroll (scroll st - 1)) else mret tt.

(** Ending ID entry mode: [picking_entry = false; selected_entry = 0;
    picking_char = None]. *)
Definition reset_picker (st : tab) : tab :=
  upd_picking_char None (upd_selected_entry 0 (upd_picking_entry false st)).

(** A digit key while picking. *)
Definition pick_digit (c : Z) : M tab unit :=
  do! st <- mget ;;
  if picking_entry st then
    do! v <- mlift (accumulate_digit (selected_entry st) c) ;;
    modify (upd_selected_entry v)
  else mret tt.


(** [GooseberryTab::from_folder]. *)
Definition from_folder (t : GooseberryEntryType) (files : list text) (fs : storage) : res tab :=
  ev <- load_files files empty [] ;;
  nid <- first_free_id ev.2 ;;
  ibs <- get_input_boxes t ;;
  Ok (mk_tab t false ev.1 ev.2 false ibs nid fs 0 None false 0 None).

(** [GooseberryTab::save_entry]. *)
Definition save_entry (id : Z) : M tab unit :=
  do! st <- mget ;;
  do! e <- mlift (ok_or (entries st !! id) (WrongEntryID (entry_type st) id)) ;;
  do! fs <- mlift (write_file (file_name (entry_type st) id) (encode e) (folder st)) ;;
  modify (upd_folder fs).

(** [GooseberryTab::toggle_task_entry]. *)
Definition toggle_task_entry : M tab unit :=
  do! st <- mget ;;
  if bool_decide (entry_type st = Task) then
    let id := selected_entry st in
    do! e <- mlift (ok_or (entries st !! id) (WrongEntryID (entry_type st) id)) ;;
    modify (fun st => upd_entries (<[id := toggle_entry e]> (entries st)) st) ;;!
    save_entry id
  else mret tt.

(** [GooseberryTab::edit_entry]. *)
Definition edit_entry : M tab unit :=
  do! st <- mget ;;
  let id := selected_entry st in
  do! e <- mlift (ok_or (entries st !! id) (WrongEntryID (entry_type st) id)) ;;
  do! ibs <- mlift (to_input_boxes e) ;;
  modify (fun st => upd_editing_id (Some id) (upd_is_writing true (upd_input_boxes ibs st))).

(** [GooseberryTab::add_entry]: the id is appended to [visible_ids] only
    when [entries.insert] returns [None]. *)
Definition add_entry (bs : list InputBox) (id : Z) (now : datetime) : M tab unit :=
  do! st <- mget ;;
  do! ne <- mlift (from_input_boxes id (entry_type st) bs now) ;;
  modify (fun st =>
    let vis := match entries st !! id with
               | None => visible_ids st ++ [id]
               | Some _ => visible_ids st
               end in
    upd_visible_ids vis (upd_entries (<[id := ne]> (entries st)) st)) ;;!
  save_entry id.

(** [GooseberryTab::toggle_fold]. *)
Definition toggle_fold (st : tab) : tab := upd_scroll 0 (upd_fold (negb (fold st)) st).

(** The action armed by [picking_char] ('t' or 'e'). *)
Definition dispatch (p : Z) : M tab unit :=
  if p =? 116 then toggle_task_entry
  else if p =? 101 then edit_entry
  else mret tt.

(** [GooseberryTab::keypress]. *)
Definition keypress (key : key_event) (now : datetime) : M tab unit :=
  do! st <- mget ;;
  if is_writing st then
    do! r <- mlift (ib_keypress key (input_boxes st)) ;;
    modify (upd_input_boxes r.1) ;;!
    (match r.2.1 with
     | Some bs =>
         match editing_id st with
         | Some id => add_entry bs id now
         | None => add_entry bs (next_id st) now ;;! incr_next_id
         end
     | None => mret tt
     end) ;;!
    (if r.2.2 then modify (upd_is_writing false) else mret tt)
  else
    match key with
    | Char c =>
        if c =? 110 then
          do! ibs <- mlift (start_writing (input_boxes st)) ;;
          modify (fun st => upd_is_writing true (upd_input_boxes ibs st))
        else if c =? 9 then modify toggle_fold
        else if (c =? 116) || (c =? 101) then
          modify (fun st => upd_selected_entry 0 (upd_picking_entry true (upd_picking_char (Some c) st)))
        else if is_digit c then pick_digit c
        else if c =? 10 then
          (match picking_char st with Some p => dispatch p | None => mret tt end) ;;!
          modify reset_picker
        else mret tt
    | Down => scroll_down
    | Up => scroll_up
    | _ => mret tt
    end.

(** Running a sequence of keystrokes, stopping at the first [Err] or panic;
    [now] is the clock reading for each keystroke. *)
Fixpoint run (keys : list (key_event * datetime)) : M tab unit :=
  match keys with
  | [] => mret tt
  | (k, now) :: ks => keypress k now ;;! run ks
  end.

End GApp.

(* ------------------------------------------------------------------ *)
(** ** The tab of [app.rs] (with deletion and merge-on-edit) *)

Module App.

Record tab := mk_tab {
  entry_type : GooseberryEntryType;
  fold : bool;
  entries : gmap Z GooseberryEntry;
  visible_ids : list Z;
  is_writing : bool;
  input_boxes : InputBoxes;
  next_id : Z;
  folder : storage;
  scroll : Z;
  picking_char : option Z;
  picking_entry : bool;
  selected_entry : Z;
  editing_entry : option GooseberryEntry }.

Definition upd_entry_type (v : GooseberryEntryType) (st : tab) : tab :=
  mk_tab v (fold st) (entries st) (visible_ids st) (is_writing st) (input_boxes st) (next_id st) (folder st) (scroll st) (picking_char st) (picking_entry st) (selected_entry st) (editing_entry st).
Definition upd_fold (v : bool) (st : tab) : tab :=
  mk_tab (entry_type st) v (entries st) (visible_ids st) (is_writing st) (input_boxes st) (next_id st) (folder st) (scroll st) (picking_char st) (picking_entry st) (selected_entry st) (editing_entry st).
Definition upd_entries (v : gmap Z GooseberryEntry) (st : tab) : tab :=
  mk_tab (entry_type st) (fold st) v (visible_ids st) (is_writing st) (input_boxes st) (next_id st) (folder st) (scroll st) (picking_char st) (picking_entry st) (selected_entry st) (editing_entry st).
Definition upd_visible_ids (v : list Z) (st : tab) : tab :=
  mk_tab (entry_type st) (fold st) (entries st) v (is_writing st) (input_boxes st) (next_id st) (folder st) (scroll st) (picking_char st) (picking_entry st) (selected_entry st) (editing_entry st).
Definition upd_is_writing (v : bool) (st : tab) : tab :=
  mk_tab (entry_type st) (fold st) (entries st) (visible_ids st) v (input_boxes st) (next_id st) (folder st) (scroll st) (picking_char st) (picking_entry st) (selected_entry st) (editing_entry st).
Definition upd_input_boxes (v : InputBoxes) (st : tab) : tab :=
  mk_tab (entry_type st) (fold st) (entries st) (visible_ids st) (is_writing st) v (next_id st) (folder st) (scroll st) (picking_char st) (picking_entry st) (selected_entry st) (editing_entry st).
Definition upd_next_id (v : Z) (st : tab) : tab :=
  mk_tab (entry_type st) (fold st) (entries st) (visible_ids st) (is_writing st) (input_boxes st) v (folder st) (scroll st) (picking_char st) (picking_entry st) (selected_entry st) (editing_entry st).
Definition upd_folder (v : storage) (st : tab) : tab :=
  mk_tab (entry_type st) (fold st) (entries st) (visible_ids st) (is_writing st) (input_boxes st) (next_id st) v (scroll st) (picking_char st) (picking_entry st) (selected_entry st) (editing_entry st).
Definition upd_scroll (v : Z) (st : tab) : tab :=
  mk_tab (entry_type st) (fold st) (entries st) (visible_ids st) (is_writing st) (input_boxes st) (next_id st) (folder st) v (picking_char st) (picking_entry st) (selected_entry st) (editing_entry st).
Definition upd_picking_char (v : option Z) (st : tab) : tab :=
  mk_tab (entry_type st) (fold st) (entries st) (visible_ids st) (is_writing st) (input_boxes st) (next_id st) (folder st) (scroll st) v (picking_entry st) (selected_entry st) (editing_entry st).
Definition upd_picking_entry (v : bool) (st : tab) : tab :=
  mk_tab (entry_type st) (fold st) (entries st) (visible_ids st) (is_writing st) (input_boxes st) (next_id st) (folder st) (scroll st) (picking_char st) v (selected_entry st) (editing_entry st).
Definition upd_selected_entry (v : Z) (st : tab) : tab :=
  mk_tab (entry_type st) (fold st) (entries st) (visible_ids st) (is_writing st) (input_boxes st) (next_id st) (folder st) (scroll st) (picking_char st) (picking_entry st) v (editing_entry st).
Definition upd_editing_entry (v : option GooseberryEntry) (st : tab) : tab :=
  mk_tab (entry_type st) (fold st) (entries st) (visible_ids st) (is_writing st) (input_boxes st) (next_id st) (folder st) (scroll st) (picking_char st) (picking_entry st) (selected_entry st) v.

(** The loop of [from_folder] over the files the glob returns, in order;
    the first file that fails to decode aborts the load. *)
Fixpoint load_files (fs : list text) (es : gmap Z GooseberryEntry) (vis : list Z)
    : res (gmap Z GooseberryEntry * list Z) :=
  match fs with
  | [] => Ok (es, vis)
  | f :: fs' =>
      g <- decode f ;;
      load_files fs' (<[entry_id g := g]> es) (vis ++ [entry_id g])
  end.

(** [*visible_ids.iter().max().unwrap_or(&0) + 1]. *)
Definition first_free_id (vis : list Z) : res Z :=
  let m := fold_right Z.max 0 vis in
  if m =? U64_MAX then Panic else Ok (m + 1).

Definition modify (f : tab -> tab) : M tab unit := fun st => (f st, Ok tt).

(** [self.next_id += 1]. *)
Definition incr_next_id : M tab unit :=
  do! st <- mget ;;
  if next_id st =? U64_MAX then mlift Panic else modify (upd_next_id (next_id st + 1)).

(** [self.scroll += 1] and [self.scroll -= 1] on the [u16] scroll. *)
Definition scroll_down : M tab unit :=
  do! st <- mget ;;
  if scroll st =? 65535 then mlift Panic else modify (upd_scroll (scroll st + 1)).
Definition scroll_up : M tab unit :=
  do! st <- mget ;;
  if 0 <? scroll st then modify (upd_scroll (scroll st - 1)) else mret tt.

(** Ending ID entry mode: [picking_entry = false; selected_entry = 0;
    picking_char = None]. *)
Definition reset_picker (st : tab) : tab :=
  upd_picking_char None (upd_selected_entry 0 (upd_picking_entry false st)).

(** A digit key while picking. *)
Definition pick_digit (c : Z) : M tab unit :=
  do! st <- mget ;;
  if picking_entry st then
    do! v <- mlift (accumulate_digit (selected_entry st) c) ;;
    modify (upd_selected_entry v)
  else mret tt.


(** [GooseberryTab::from_folder]. *)
Definition from_folder (t : GooseberryEntryType) (files : list text) (fs : storage) : res tab :=
  ev <- load_files files empty [] ;;
  nid <- first_free_id ev.2 ;;
  ibs <- get_input_boxes t ;;
  Ok (mk_tab t false ev.1 ev.2 false ibs nid fs 0 None false 0 None).

(** [GooseberryTab::save_entry]. *)
Definition save_entry (id : Z) : M tab unit :=
  do! st <- mget ;;
  do! e <- mlift (ok_or (entries st !! id) (MissingEntryID (entry_type st) id)) ;;
  do! fs <- mlift (write_file (file_name (entry_type st) id) (encode e) (folder st)) ;;
  modify (upd_folder fs).

(** [GooseberryTab::toggle_task_entry]. *)
Definition toggle_task_entry : M tab unit :=
  do! st <- mget ;;
  if bool_decide (entry_type st = Task) then
    let id := selected_entry st in
    do! e <- mlift (ok_or (entries st !! id) (MissingEntryID (entry_type st) id)) ;;
    modify (fun st => upd_entries (<[id := toggle_entry e]> (entries st)) st) ;;!
    save_entry id
  else mret tt.

(** [GooseberryTab::start_editing]. *)
Definition start_editing : M tab unit :=
  do! st <- mget ;;
  let id := selected_entry st in
  do! e <- mlift (ok_or (entries st !! id) (MissingEntryID (entry_type st) id)) ;;
  do! ibs <- mlift (to_input_boxes e) ;;
  modify (fun st => upd_editing_entry (Some e) (upd_is_writing true (upd_input_boxes ibs st))).

(** [GooseberryTab::merge_entry]. *)
Definition merge_entry (bs : list InputBox) (now : datetime) : M tab unit :=
  do! st <- mget ;;
  do! old <- mlift (ok_or (editing_entry st)
                      (OutOfCheeseError (txt "I already checked that this is_some but is_none!"))) ;;
  let id := entry_id old in
  do! ne <- mlift (from_input_boxes id (entry_type st) bs now) ;;
  modify (fun st => upd_entries (<[id := merge_with_entry ne old]> (entries st)) st) ;;!
  save_entry id.

(** [GooseberryTab::add_entry]. *)
Definition add_entry (bs : list InputBox) (id : Z) (now : datetime) : M tab unit :=
  do! st <- mget ;;
  do! ne <- mlift (from_input_boxes id (entry_type st) bs now) ;;
  modify (fun st => upd_visible_ids (visible_ids st ++ [id])
                      (upd_entries (<[id := ne]> (entries st)) st)) ;;!
  save_entry id.

(** [GooseberryTab::delete_entry]. *)
Definition delete_entry (id : Z) : M tab unit :=
  do! st <- mget ;;
  match entries st !! id with
  | None => mlift (Err (MissingEntryID (entry_type st) id))
  | Some _ =>
      modify (fun st => upd_visible_ids (remove_item id (visible_ids st))
                          (upd_entries (delete id (entries st)) st)) ;;!
      do! st <- mget ;;
      do! fs <- mlift (remove_file (file_name (entry_type st) id) (folder st)) ;;
      modify (upd_folder fs)
  end.

(** The action armed by [picking_char] ('t', 'e' or 'd'). *)
Definition dispatch (p : Z) : M tab unit :=
  do! st <- mget ;;
  if p =? 116 then toggle_task_entry
  else if p =? 101 then start_editing
  else if p =? 100 then delete_entry (selected_entry st)
  else mret tt.

(** [GooseberryTab::keypress]. In writing mode the key goes to the input
    boxes (the [InputBoxes::keypress] of [interactive.rs]; the call in
    [app.rs] also passes the layout and the terminal cursor, which only
    affect rendering). *)
Definition keypress (key : key_event) (now : datetime) : M tab unit :=
  do! st <- mget ;;
  if is_writing st then
    do! r <- mlift (ib_keypress key (input_boxes st)) ;;
    modify (upd_input_boxes r.1) ;;!
    (match r.2.1 with
     | Some bs =>
         match editing_entry st with
         | Some _ => merge_entry bs now ;;! modify (upd_editing_entry None)
         | None => add_entry bs (next_id st) now ;;! incr_next_id
         end
     | None => mret tt
     end) ;;!
    (if r.2.2 then modify (upd_is_writing false) else mret tt)
  else
    match key with
    | Char c =>
        if c =? 110 then
          modify (upd_is_writing true) ;;!
          do! ibs <- mlift (start_writing (input_boxes st)) ;;
          modify (upd_input_boxes ibs)
        else if c =? 9 then modify (upd_fold (negb (fold st)))
        else if (c =? 116) || (c =? 101) || (c =? 100) then
          modify (fun st => upd_selected_entry 0 (upd_picking_entry true (upd_picking_char (Some c) st)))
        else if is_digit c then pick_digit c
        else if c =? 10 then
          (match picking_char st with Some p => dispatch p | None => mret tt end) ;;!
          modify reset_picker
        else mret tt
    | Down => scroll_down
    | Up => scroll_up
    | _ => mret tt
    end.

(** Running a sequence of keystrokes, stopping at the first [Err] or panic;
    [now] is the clock reading for each keystroke. *)
Fixpoint run (keys : list (key_event * datetime)) : M tab unit :=
  match keys with
  | [] => mret tt
  | (k, now) :: ks => keypress k now ;;! run ks
  end.

End App.

(* ------------------------------------------------------------------ *)
(** ** Layout of the input boxes ([InputBoxes::get_constraints]) *)

(** [TAB_BOX_PERCENT] and [HELP_BOX_PERCENT] of [gooseberry_app.rs]. *)
Definition TAB_BOX_PERCENT : Z := 7.
Definition HELP_BOX_PERCENT : Z := 13.

Inductive Constraint := Percentage (p : Z).

Definition constraint_percent (c : Constraint) : Z := match c with Percentage p => p end.

(** [a - b] on [u16]: an underflow panics. *)
Definition u16_sub (a b : Z) : res Z := if a <? b then Panic else Ok (a - b).

(** [.sum::<u16>()]: an overflow panics. *)
Fixpoint u16_sum (acc : Z) (l : list Z) : res Z :=
  match l with
  | [] => Ok acc
  | x :: l' => if 65535 <? acc + x then Panic else u16_sum (acc + x) l'
  end.

(** [InputBoxes::get_constraints]. *)
Definition get_constraints (ibs : InputBoxes) : res (list Constraint) :=
  sum <- u16_sum 0 (map ib_percent (ibs_boxes ibs)) ;;
  a <- u16_sub 100 TAB_BOX_PERCENT ;;
  b <- u16_sub a sum ;;
  second_box_percent <- u16_sub b HELP_BOX_PERCENT ;;
  Ok ([Percentage TAB_BOX_PERCENT; Percentage second_box_percent]
      ++ map (fun b => Percentage (ib_percent b)) (ibs_boxes ibs)
      ++ [Percentage HELP_BOX_PERCENT]).

(* ------------------------------------------------------------------ *)
(** ** [GooseberryTabs] of [gooseberry_app.rs] *)

Module GTabs.

Record GooseberryTabs := mk_tabs { tabs : list GApp.tab; index : nat }.

(** [GooseberryTabs::from_folder]: one tab per entry type, in this order;
    [glob t] is the content of the files of type [t] in the folder. *)
Definition from_folder (glob : GooseberryEntryType -> list text) (fs : storage)
    : res GooseberryTabs :=
  t1 <- GApp.from_folder Task (glob Task) fs ;;
  t2 <- GApp.from_folder Journal (glob Journal) fs ;;
  t3 <- GApp.from_folder Research (glob Research) fs ;;
  t4 <- GApp.from_folder Event (glob Event) fs ;;
  Ok (mk_tabs [t1; t2; t3; t4] 0).

(** [self.tabs[self.index]]; out of range panics. *)
Definition active (s : GooseberryTabs) : res GApp.tab :=
  match tabs s !! index s with Some t => Ok t | None => Panic end.

(** [GooseberryTabs::is_writing]. *)
Definition is_writing (s : GooseberryTabs) : res bool :=
  t <- active s ;; Ok (GApp.is_writing t).

(** [GooseberryTabs::next]: [% 0] panics. *)
Definition next (s : GooseberryTabs) : res GooseberryTabs :=
  let n := length (tabs s) in
  if (n =? 0)%nat then Panic else Ok (mk_tabs (tabs s) ((index s + 1) mod n)).

(** [GooseberryTabs::previous]: [0 - 1] on [usize] panics. *)
Definition previous (s : GooseberryTabs) : res GooseberryTabs :=
  if (0 <? index s)%nat then Ok (mk_tabs (tabs s) (index s - 1))
  else if (length (tabs s) =? 0)%nat then Panic
  else Ok (mk_tabs (tabs s) (length (tabs s) - 1)).

(** [self.tabs[self.index].keypress(key)]: the active tab's state is
    updated in place, also when its keypress fails. *)
Definition tab_keypress (key : key_event) (now : datetime) : M GooseberryTabs unit :=
  fun s =>
    match tabs s !! index s with
    | Some t =>
        let '(t', r) := GApp.keypress key now t in
        (mk_tabs (<[index s := t']> (tabs s)) (index s), r)
    | None => (s, Panic)
    end.

(** [GooseberryTabs::keypress]: [true] asks the application to quit. *)
Definition keypress (key : key_event) (now : datetime) : M GooseberryTabs bool :=
  do! s <- mget ;;
  do! w <- mlift (is_writing s) ;;
  if negb w then
    match key with
    | Char c =>
        if c =? 113 then mret true else tab_keypress key now ;;! mret false
    | Right => do! s' <- mlift (next s) ;; mput s' ;;! mret false
    | Left => do! s' <- mlift (previous s) ;; mput s' ;;! mret false
    | _ => tab_keypress key now ;;! mret false
    end
  else tab_keypress key now ;;! mret false.

End GTabs.

(* ------------------------------------------------------------------ *)
(** ** Sample notes, forms and tab states *)

(** Two clock readings. *)
Definition T0 : datetime := mkdt 2023 1 1 0 0 0 0.
Definition T1 : datetime := mkdt 2023 2 1 9 30 0 0.

Definition task3 : GooseberryEntry :=
  GTask (mk_task 3 (txt "buy milk") (txt "buy 2% milk") T0 false [txt "x"; txt "y"]).
Definition task7 : GooseberryEntry :=
  GTask (mk_task 7 (txt "buy milk") (txt "details") T0 true [txt "x"]).
Definition c1_note : GooseberryEntry :=
  GTask (mk_task 7 (txt "buy milk") (txt "buy 2% milk") T0 true [txt "x"; txt "y"]).
Definition c1_untagged : GooseberryEntry := GJournal (mk_journal 3 (txt "notes") T0 []).

(** The task form of [get_input_boxes Task] holding the given contents. *)
Definition task_form (task descr tags : text) : InputBoxes :=
  mk_boxes [mk_box (txt "Task") true task false 10 0; mk_box (txt "Description") false descr true 60 0;
            mk_box (txt "Tags") false tags false 10 0] 0.
Definition form_sample : InputBoxes := task_form (txt "milk") [] [].

(** A file's content from its lines. *)
Definition lines (ls : list text) : text := join NL ls.
Definition note_text : text := lines [txt "---"; txt "Type: Task"; txt "ID: 3";
  txt "DateTime: Jan 01 2023 12:00:00 AM"; txt "Tags: x, y"; txt "Task: buy milk";
  txt "Done: false"; txt "---"; txt "buy 2% milk"].
Definition note_text_v_r : text := lines [txt "---"; txt "Type: Task"; txt "ID: 3";
  txt "DateTime:  1-Jan-2023 12:00:00 AM"; txt "Tags: x, y"; txt "Task: buy milk";
  txt "Done: false"; txt "---"; txt "buy 2% milk"].

(** Keystrokes, all at the clock reading [now]. *)
Definition keys_at (now : datetime) (ks : list key_event) : list (key_event * datetime) :=
  map (fun k => (k, now)) ks.

(** Task 7 opened for editing, its form changed. *)
Definition edit_state : App.tab :=
  App.mk_tab Task false {[7 := task7]} [7] true (task_form (txt "sell milk") (txt "new details") (txt "y"))
    8 (mk_storage true empty) 0 None false 0 (Some task7).
(** ['e'] then ['5'] typed, with no entry 5. *)
Definition armed_state : App.tab :=
  App.mk_tab Task false {[3 := task3]} [3] false (task_form [] [] []) 4 (mk_storage true empty)
    0 (Some 101) true 5 None.
(** A folder holding task 3, writable or not. *)
Definition loaded_state : res App.tab := App.from_folder Task [encode task3] (mk_storage true empty).
Definition readonly_state : res GApp.tab :=
  GApp.from_folder Task [encode task3] (mk_storage false empty).
(** ['e'] typed, then digits accumulating [sel]. *)
Definition picking_state (sel : Z) : GApp.tab :=
  GApp.mk_tab Task false {[3 := task3]} [3] false (task_form [] [] []) 4 (mk_storage true empty)
    0 (Some 101) true sel None.
(** A new task being written, its form empty. *)
Definition empty_form_state : GApp.tab :=
  GApp.mk_tab Task false {[3 := task3]} [3] true (task_form [] [] []) 4 (mk_storage true empty)
    0 None false 0 None.

(** A Task tab being browsed, with task 3 loaded. *)
Definition browse_state : GApp.tab :=
  GApp.mk_tab Task false {[3 := task3]} [3] false (task_form [] [] []) 4 (mk_storage true empty)
    0 None false 0 None.
(** Three tabs browsed, the first one active. *)
Definition browse_tabs : GTabs.GooseberryTabs :=
  GTabs.mk_tabs [browse_state; picking_state 0; browse_state] 0.
(** Two tabs, the second one active and writing a new task. *)
Definition writing_tabs : GTabs.GooseberryTabs :=
  GTabs.mk_tabs [browse_state; empty_form_state] 1.
(** ['t'] then ['3'] typed on the Task tab. *)
Definition toggle_state : GApp.tab :=
  GApp.mk_tab Task false {[3 := task3]} [3] false (task_form [] [] []) 4 (mk_storage true empty)
    0 (Some 116) true 3 None.
(** ['d'] then ['3'] typed in the tab of [app.rs], the folder holding the
    file of task 3, writable or not. *)
Definition delete_state (wr : bool) : App.tab :=
  App.mk_tab Task false {[3 := task3]} [3] false (task_form [] [] []) 4
    (mk_storage wr {[file_name Task 3 := encode task3]}) 0 (Some 100) true 3 None.
(** A Task tab being browsed after task 3 was edited and saved. *)
Definition edited_state : GApp.tab :=
  GApp.mk_tab Task false {[3 := task3]} [3] false (task_form [] [] []) 4 (mk_storage true empty)
    0 None false 0 (Some 3).
(** A folder whose only file is task 3. *)
Definition sample_glob (t : GooseberryEntryType) : list text :=
  match t with Task => [encode task3] | _ => [] end.

(* ------------------------------------------------------------------ *)
(** ** Predicates on forms *)

(** Exactly the focused box is in writing mode. *)
Definition focus_ok (ibs : InputBoxes) : Prop :=
  (ibs_index ibs < length (ibs_boxes ibs))%nat
  /\ forall j b, ibs_boxes ibs !! j = Some b -> ib_is_writing b = Nat.eqb j (ibs_index ibs).

(** No box is in writing mode. *)
Definition none_writing (ibs : InputBoxes) : Prop :=
  Forall (fun b => ib_is_writing b = false) (ibs_boxes ibs).

(** A list field that [join(", ")] then [split_list] gives back: not
    empty, and no item holds a comma or has surrounding whitespace. *)
Definition field_list_ok (l : list text) : Prop :=
  l <> [] /\ Forall (fun u => ~ In 44 u /\ trim u = u) l.

(** The list fields of an entry that the edit form carries as text. *)
Definition form_fields_ok (g : GooseberryEntry) : Prop :=
  match g with
  | GEvent e => field_list_ok (e_people e) /\ field_list_ok (e_tags e)
  | _ => field_list_ok (entry_tags g)
  end.

(** The sum of a list of integers. *)
Definition sum_Z (l : list Z) : Z := fold_right Z.add 0 l.

(** Every tab but the active one is out of writing mode. *)
Definition only_active_writing (s : GTabs.GooseberryTabs) : Prop :=
  forall j t, j <> GTabs.index s -> GTabs.tabs s !! j = Some t -> GApp.is_writing t = false.

(** A property of the state that a stateful method keeps, whatever its
    result. *)
Definition preserves {S A} (P : S -> Prop) (m : M S A) : Prop :=
  forall s s' r, P s -> m s = (s', r) -> P s'.

(** The ids with an entry are exactly the ids listed in [visible_ids]. *)
Definition ids_match (st : GApp.tab) : Prop :=
  forall id, is_Some (GApp.entries st !! id) <-> In id (GApp.visible_ids st).

(** An entry has been opened for editing, and [next_id] is [n]. *)
Definition editing_frozen (n : Z) (st : GApp.tab) : Prop :=
  is_Some (GApp.editing_id st) /\ GApp.next_id st = n.

(* ================================================================== *)
(** * Properties *)

(** Sample values of the timestamp codec. *)

Example parse_v_r_example :
  parse_v_r (txt " 1-Jan-2023 12:00:00 AM") = inr (mkdt 2023 1 1 0 0 0 0).
Proof. vm_compute. reflexivity. Qed.

Example format_v_r_example :
  format_v_r (mkdt 2023 1 1 0 0 0 0) = txt " 1-Jan-2023 12:00:00 AM".
Proof. vm_compute. reflexivity. Qed.

Example format_v_r_example2 :
  format_v_r (mkdt (-1) 12 31 13 5 9 0) = txt "31-Dec--0001 01:05:09 PM".
Proof. vm_compute. reflexivity. Qed.

Example parse_v_r_example2 :
  parse_v_r (txt "31-Dec--0001 01:05:09 PM") = inr (mkdt (-1) 12 31 13 5 9 0).
Proof. vm_compute. reflexivity. Qed.

(* ------------------------------------------------------------------ *)
(** ** Splitting, joining and trimming *)


Lemma split_char_go_skip c x s cur :
  x <> c -> split_char_go c (x :: s) cur = split_char_go c s (x :: cur).
Proof. intros H. simpl. apply Z.eqb_neq in H. rewrite H. reflexivity. Qed.

Lemma join_cons sep x l : l <> [] -> join sep (x :: l) = x ++ sep ++ join sep l.
Proof. destruct l; [congruence | reflexivity]. Qed.

Lemma split_char_go_free c s cur :
  ~ In c s -> split_char_go c s cur = [rev cur ++ s].
Proof.
  revert cur; induction s as [|x s IH]; intros cur Hn; simpl.
  - rewrite app_nil_r; reflexivity.
  - destruct (Z.eqb_spec x c) as [->|Hx]; [exfalso; apply Hn; left; reflexivity|].
    rewrite IH by (intros H; apply Hn; right; exact H).
    simpl. rewrite <- app_assoc. reflexivity.
Qed.

Lemma split_char_go_app c a b cur :
  ~ In c a -> split_char_go c (a ++ c :: b) cur = (rev cur ++ a) :: split_char_go c b [].
Proof.
  revert cur; induction a as [|x a IH]; intros cur Hn; simpl.
  - rewrite Z.eqb_refl, app_nil_r. reflexivity.
  - destruct (Z.eqb_spec x c) as [->|Hx]; [exfalso; apply Hn; left; reflexivity|].
    rewrite IH by (intros H; apply Hn; right; exact H).
    simpl. rewrite <- app_assoc. reflexivity.
Qed.




Lemma split_char_go_join_comma t ts cur :
  Forall (fun u => ~ In 44 u) (t :: ts) ->
  split_char_go 44 (join [44; 32] (t :: ts)) cur
  = (rev cur ++ t) :: map (fun u => 32 :: u) ts.
Proof.
  revert t cur; induction ts as [|u ts IH]; intros t cur Hf; inversion Hf as [|? ? Ht Hts]; subst.
  - simpl. apply split_char_go_free. exact Ht.
  - rewrite join_cons by discriminate. cbn [app].
    rewrite split_char_go_app by exact Ht. f_equal.
    rewrite split_char_go_skip by discriminate.
    rewrite (IH u [32]) by exact Hts. reflexivity.
Qed.

Lemma trim_space u : trim (32 :: u) = trim u.
Proof. reflexivity. Qed.

(** Tags joined with [", "] split back identically when every tag is free of
    commas and of surrounding whitespace. *)
Lemma split_list_join tags :
  tags <> [] -> Forall (fun u => ~ In 44 u /\ trim u = u) tags ->
  split_list (join (txt ", ") tags) = tags.
Proof.
  intros Hne Hf. destruct tags as [|t ts]; [congruence|].
  assert (Hc : Forall (fun u => ~ In 44 u) (t :: ts)).
  { eapply Forall_impl; [exact Hf|]. intros u [Hu _]; exact Hu. }
  change (txt ", ") with [44; 32]. unfold split_list, split_char.
  rewrite (split_char_go_join_comma t ts [] Hc). simpl.
  apply Forall_cons in Hf as [[_ Ht] Hts]. rewrite Ht. f_equal.
  clear Hne Hc Ht. induction ts as [|u ts IH]; [reflexivity|].
  apply Forall_cons in Hts as [[_ Hu] Hts].
  simpl. rewrite trim_space, Hu, (IH Hts). reflexivity.
Qed.







(* ------------------------------------------------------------------ *)
(** ** Decimal digits *)

















(* ------------------------------------------------------------------ *)
(** ** Scanning numbers *)




(* ------------------------------------------------------------------ *)
(** ** Parsing the items of ["%v %r"] *)
















(* ------------------------------------------------------------------ *)
(** ** Reading back the header block *)






(* ------------------------------------------------------------------ *)
(** ** Header values *)




Lemma parse_entry_type_name t : parse_entry_type (entry_type_name t) = Ok t.
Proof. destruct t; reflexivity. Qed.













(* ------------------------------------------------------------------ *)
(** ** The text [to_file] writes *)





(* ------------------------------------------------------------------ *)
(** ** Reading back each variant *)

Lemma header_lit_line k v :
  key_ok k = true -> ~ In 10 v -> no_cs v = true ->
  key_ok k = true /\ ~ In 10 v /\ no_cs v = true.
Proof. auto. Qed.











(** ** The claims *)






(** C2: saving the form of a note opened for editing stores, under the old
    id, the merge of the form's note into the old one: the id, the timestamp,
    the variant and (for a task) the done flag of the old note, the texts and
    tags of the form. *)
Lemma merge_on_edit st old ne now :
  App.is_writing st = true -> App.editing_entry st = Some old ->
  App.entry_type st = entry_kind old ->
  from_input_boxes (entry_id old) (App.entry_type st) (ibs_boxes (App.input_boxes st)) now = Ok ne ->
  let m := merge_with_entry ne old in
  App.entries (fst (App.keypress (Ctrl 115) now st)) !! entry_id old = Some m
  /\ entry_id m = entry_id old /\ entry_datetime m = entry_datetime old
  /\ entry_kind m = entry_kind old /\ entry_tags m = entry_tags ne
  /\ (forall o e, old = GTask o -> ne = GTask e ->
        m = GTask (mk_task (t_id o) (t_task e) (t_description e) (t_datetime o) (t_done o) (t_tags e))).
Proof.
  intros Hw He Hk Hn m.
  assert (Hm : entry_id m = entry_id old /\ entry_datetime m = entry_datetime old
    /\ entry_kind m = entry_kind old /\ entry_tags m = entry_tags ne
    /\ (forall o e, old = GTask o -> ne = GTask e ->
        m = GTask (mk_task (t_id o) (t_task e) (t_description e) (t_datetime o) (t_done o) (t_tags e)))).
  { subst m. rewrite Hk in Hn.
    destruct old as [o|o|o|o]; cbn in Hn;
    repeat match type of Hn with context [content_at ?bs ?i] =>
      destruct (content_at bs i); cbn in Hn; try discriminate end;
    injection Hn as <-; cbn; repeat split;
    intros o' e' H1 H2; (discriminate || (injection H1 as <-; injection H2 as <-; reflexivity)). }
  split; [|exact Hm].
  destruct st as [t fo es vis w ibs nid fs sc pc pe se ed]; cbn in *. subst w ed.
  unfold App.keypress, mbind, mget, mlift, App.modify; cbn.
  unfold App.merge_entry, mbind, mget, mlift, App.modify; cbn. rewrite Hn. cbn.
  unfold App.save_entry, mbind, mget, mlift, App.modify; cbn.
  first [rewrite lookup_insert_eq | rewrite decide_True by reflexivity]. cbn.
  destruct (write_file (file_name t (entry_id old)) (encode (merge_with_entry ne old)) fs);
    cbn; apply lookup_insert_eq.
Qed.

(** Task 7 (timestamp [T0], done) saved with new texts at [T1]. *)
Lemma merge_on_edit_witness :
  App.entries (fst (App.keypress (Ctrl 115) T1 edit_state)) !! 7
  = Some (GTask (mk_task 7 (txt "sell milk") (txt "new details") T0 true [txt "y"])).
Proof.
  refine (proj1 (merge_on_edit edit_state task7
    (GTask (mk_task 7 (txt "sell milk") (txt "new details") T1 false [txt "y"])) T1 _ _ _ _)).
  - reflexivity.
  - reflexivity.
  - reflexivity.
  - vm_compute. reflexivity.
Defined.

(** C3: the confirm key with 'e' armed for an id that has no entry fails
    with [MissingEntryID] and leaves the whole tab as it was, the picker still
    armed with its command and accumulated id. *)
Lemma picker_armed_after_failed_dispatch st now :
  App.is_writing st = false -> App.picking_char st = Some 101 ->
  App.entries st !! App.selected_entry st = None ->
  App.keypress (Char 10) now st = (st, Err (MissingEntryID (App.entry_type st) (App.selected_entry st))).
Proof.
  intros Hw Hp Hn.
  unfold App.keypress, mbind, mget. rewrite Hw, Hp. cbn.
  unfold App.dispatch, App.start_editing, mbind, mget, mlift. cbn. rewrite Hn. reflexivity.
Qed.

Lemma picker_armed_after_failed_dispatch_witness :
  App.keypress (Char 10) T1 armed_state = (armed_state, Err (MissingEntryID Task 5))
  /\ App.picking_entry armed_state = true /\ App.picking_char armed_state = Some 101.
Proof.
  split; [|split; reflexivity].
  apply (picker_armed_after_failed_dispatch armed_state T1); reflexivity.
Defined.

(** C4 (as the code has it): Esc ends authoring without a snapshot, stops
    writing in every box and moves the focus to the first one, and keeps every
    box's content. *)
Lemma esc_keeps_form ibs :
  ib_keypress Esc ibs = Ok (stop_writing ibs, (None, true))
  /\ map ib_content (ibs_boxes (stop_writing ibs)) = map ib_content (ibs_boxes ibs)
  /\ Forall (fun b => ib_is_writing b = false) (ibs_boxes (stop_writing ibs))
  /\ ibs_index (stop_writing ibs) = 0%nat.
Proof.
  split; [reflexivity|]. unfold stop_writing; cbn. split; [|split; [|reflexivity]].
  - rewrite map_map. apply map_ext. reflexivity.
  - apply List.Forall_map. apply List.Forall_forall. reflexivity.
Qed.

(** A form holding [milk] still holds it after Esc. *)
Example esc_keeps_form_sample :
  exists ibs' r, ib_keypress Esc form_sample = Ok (ibs', r)
  /\ map ib_content (ibs_boxes ibs') = [txt "milk"; []; []].
Proof. eexists _, _. split; [reflexivity | vm_compute; reflexivity]. Qed.

(** C5: [decode] panics on an opening mark without a closing one, and on a
    header line without [": "]. *)
Example decode_panics :
  decode (lines [txt "---"; txt "Type: Task"]) = Panic
  /\ decode (lines [txt "---"; txt "foo"; txt "---"; []]) = Panic.
Proof. vm_compute. split; reflexivity. Qed.

(** C6 (as the code has it): the note of the scenario with its timestamp in
    the [%v %r] format of [to_file] decodes to the task with id 3, tags x and
    y, summary [buy milk], not done, body [buy 2% milk]. *)
Example decode_note_text_v_r :
  decode note_text_v_r = Ok (GTask (mk_task 3 (txt "buy milk") (txt "buy 2% milk") T0 false [txt "x"; txt "y"])).
Proof. vm_compute. reflexivity. Qed.

(** The scenario's own text, with [Jan 01 2023], fails on the timestamp. *)
Example decode_note_text : decode note_text = Err (ChronoParseError Invalid).
Proof. vm_compute. reflexivity. Qed.

(** C7: opening task 3 for editing, leaving with Esc, deleting task 3, then
    saving a new note brings entry 3 back into [entries] while [visible_ids]
    stays empty. *)
Example deleted_entry_resurrected :
  exists st, loaded_state = Ok st
  /\ let '(st', r) := App.run (keys_at T1 [Char 101; Char 51; Char 10; Esc; Char 100; Char 51;
                                          Char 10; Char 110; Ctrl 115]) st in
     r = Ok tt /\ App.visible_ids st = [3] /\ is_Some (App.entries st' !! 3)
     /\ App.visible_ids st' = [].
Proof.
  eexists. split; [vm_compute; reflexivity|]. vm_compute.
  split; [reflexivity|]. split; [reflexivity|]. split; [eexists; reflexivity | reflexivity].
Qed.

(** C8: when the note file cannot be written, saving a new note leaves it in
    [entries] under [next_id] and [next_id] is not incremented. *)
Example failed_add_keeps_next_id :
  exists st, readonly_state = Ok st
  /\ let '(st', r) := GApp.run (keys_at T1 [Char 110; Ctrl 115]) st in
     r = Err IoError /\ GApp.next_id st = 4 /\ is_Some (GApp.entries st' !! 4)
     /\ GApp.next_id st' = 4.
Proof.
  eexists. split; [vm_compute; reflexivity|]. vm_compute.
  split; [reflexivity|]. split; [reflexivity|]. split; [eexists; reflexivity | reflexivity].
Qed.




(** C10: saving a new note from a form whose boxes are all empty succeeds:
    a note with empty texts and the tags [[[]]] is stored under [next_id] and
    written to its file, and [next_id] is incremented. *)
Lemma empty_form_saved st now ibs0 :
  GApp.is_writing st = true -> GApp.editing_id st = None ->
  get_input_boxes (GApp.entry_type st) = Ok ibs0 ->
  length (ibs_boxes (GApp.input_boxes st)) = length (ibs_boxes ibs0) ->
  Forall (fun b => ib_content b = []) (ibs_boxes (GApp.input_boxes st)) ->
  st_writable (GApp.folder st) = true -> GApp.next_id st <> U64_MAX ->
  exists ne st',
    GApp.keypress (Ctrl 115) now st = (st', Ok tt)
    /\ GApp.entries st' = <[GApp.next_id st := ne]> (GApp.entries st)
    /\ entry_id ne = GApp.next_id st /\ entry_kind ne = GApp.entry_type st
    /\ entry_datetime ne = now /\ entry_tags ne = [[]]
    /\ match ne with
       | GTask e => t_task e = [] /\ t_description e = [] /\ t_done e = false
       | GJournal e => j_description e = []
       | GResearch e => r_title e = [] /\ r_notes e = []
       | GEvent e => e_title e = [] /\ e_notes e = [] /\ e_people e = [[]]
       end
    /\ st_files (GApp.folder st') !! file_name (GApp.entry_type st) (GApp.next_id st)
       = Some (encode ne)
    /\ GApp.next_id st' = GApp.next_id st + 1
    /\ GApp.is_writing st' = false.
Proof.
  destruct st as [t fo es vis w [bs idx] nid [wr files] sc pc pe se ed]; cbn.
  intros -> -> Hib Hlen Hc -> Hnid.
  destruct t; cbn in Hib; injection Hib as <-; cbn in Hlen;
    (destruct bs as [|b1 [|b2 [|b3 [|b4 [|b5 bs]]]]]; cbn in Hlen; try lia);
    repeat (apply Forall_cons in Hc as [? Hc]);
    repeat match goal with H : ib_content ?b = [] |- _ => destruct b; cbn in H; subst end.
  all: eexists _, _; split;
    [ unfold GApp.keypress, mbind, mget, mlift, GApp.modify; cbn;
      unfold GApp.add_entry, GApp.save_entry, GApp.incr_next_id, mbind, mget, mlift, GApp.modify;
      cbn; rewrite lookup_insert_eq; cbn;
      replace (nid =? U64_MAX) with false by (symmetry; apply Z.eqb_neq; exact Hnid);
      reflexivity | ].
  all: cbn -[file_name encode U64_MAX]; repeat split; try reflexivity; apply lookup_insert_eq.
Qed.

Lemma empty_form_saved_witness :
  exists ne st',
    GApp.keypress (Ctrl 115) T1 empty_form_state = (st', Ok tt)
    /\ GApp.entries st' = <[4 := ne]> {[3 := task3]}
    /\ entry_id ne = 4 /\ entry_kind ne = Task
    /\ entry_datetime ne = T1 /\ entry_tags ne = [[]]
    /\ match ne with
       | GTask e => t_task e = [] /\ t_description e = [] /\ t_done e = false
       | GJournal e => j_description e = []
       | GResearch e => r_title e = [] /\ r_notes e = []
       | GEvent e => e_title e = [] /\ e_notes e = [] /\ e_people e = [[]]
       end
    /\ st_files (GApp.folder st') !! file_name Task 4 = Some (encode ne)
    /\ GApp.next_id st' = 5
    /\ GApp.is_writing st' = false.
Proof.
  apply (empty_form_saved empty_form_state T1 (task_form [] [] [])).
  - reflexivity.
  - reflexivity.
  - vm_compute. reflexivity.
  - reflexivity.
  - repeat constructor.
  - reflexivity.
  - vm_compute. discriminate.
Defined.

(* ------------------------------------------------------------------ *)
(** ** Further properties of the code *)

Lemma box_update_lookup i f ibs ibs' :
  box_update i f ibs = Ok ibs' ->
  (i < length (ibs_boxes ibs))%nat /\ ibs_index ibs' = ibs_index ibs
  /\ length (ibs_boxes ibs') = length (ibs_boxes ibs)
  /\ forall j, ibs_boxes ibs' !! j
               = if decide (i = j) then f <$> ibs_boxes ibs !! j else ibs_boxes ibs !! j.
Proof.
  unfold box_update. destruct (Nat.ltb_spec i (length (ibs_boxes ibs))); [|discriminate].
  intros E. injection E as <-. cbn. split; [assumption|]. split; [reflexivity|].
  split; [apply length_alter|]. intros j. destruct (decide (i = j)) as [<-|Hne].
  - apply list_lookup_alter_eq.
  - apply list_lookup_alter_ne. exact Hne.
Qed.

Lemma box_update_ok i f ibs :
  (i < length (ibs_boxes ibs))%nat ->
  box_update i f ibs = Ok (mk_boxes (alter f i (ibs_boxes ibs)) (ibs_index ibs)).
Proof.
  intros H. unfold box_update. destruct (Nat.ltb_spec i (length (ibs_boxes ibs))); [reflexivity | lia].
Qed.

Lemma focus_update_keep i f ibs ibs' :
  focus_ok ibs -> (forall b, ib_is_writing (f b) = ib_is_writing b) ->
  box_update i f ibs = Ok ibs' -> focus_ok ibs'.
Proof.
  intros [Hi Hw] Hf E. destruct (box_update_lookup _ _ _ _ E) as (_ & Hix & Hlen & Hl).
  split; [lia|]. intros j b Hj. rewrite Hl in Hj. rewrite Hix.
  destruct (decide (i = j)) as [<-|]; [|eauto].
  destruct (ibs_boxes ibs !! i) as [b0|] eqn:E0; cbn in Hj; [|discriminate].
  injection Hj as <-. rewrite Hf. eauto.
Qed.

(** Moving the focus: the old box stops writing and box [k] starts. *)
Lemma focus_move ibs k ibs1 ibs2 :
  focus_ok ibs -> (k < length (ibs_boxes ibs))%nat ->
  box_update (ibs_index ibs) (set_is_writing false) ibs = Ok ibs1 ->
  box_update k (set_is_writing true) (set_index k ibs1) = Ok ibs2 ->
  focus_ok ibs2 /\ ibs_index ibs2 = k
  /\ map ib_content (ibs_boxes ibs2) = map ib_content (ibs_boxes ibs).
Proof.
  intros [Hi Hw] Hk E1 E2.
  destruct (box_update_lookup _ _ _ _ E1) as (_ & Hix1 & Hlen1 & Hl1).
  destruct (box_update_lookup _ _ _ _ E2) as (_ & Hix2 & Hlen2 & Hl2).
  cbn in Hix2, Hlen2, Hl2.
  assert (Hl : forall j, ibs_boxes ibs2 !! j =
    (if decide (k = j) then set_is_writing true <$> ibs_boxes ibs !! j
     else if decide (ibs_index ibs = j) then set_is_writing false <$> ibs_boxes ibs !! j
     else ibs_boxes ibs !! j)).
  { intros j. rewrite Hl2, Hl1. destruct (decide (k = j)) as [<-|].
    - destruct (decide (ibs_index ibs = k)) as [<-|]; [|reflexivity].
      destruct (ibs_boxes ibs !! ibs_index ibs); reflexivity.
    - reflexivity. }
  split; [split|split].
  - rewrite Hix2, Hlen2, Hlen1. exact Hk.
  - intros j b Hj. rewrite Hix2. rewrite Hl in Hj.
    destruct (decide (k = j)) as [<-|Hkj].
    + destruct (ibs_boxes ibs !! k); cbn in Hj; [|discriminate]. injection Hj as <-.
      cbn. symmetry. apply Nat.eqb_refl.
    + replace (Nat.eqb j k) with false by (symmetry; apply Nat.eqb_neq; congruence).
      destruct (decide (ibs_index ibs = j)) as [<-|Hij].
      * destruct (ibs_boxes ibs !! ibs_index ibs); cbn in Hj; [|discriminate].
        injection Hj as <-. reflexivity.
      * rewrite (Hw j b Hj). apply Nat.eqb_neq. congruence.
  - exact Hix2.
  - apply list_eq. intros j. rewrite !list_lookup_fmap, Hl.
    destruct (decide (k = j)); [destruct (ibs_boxes ibs !! j); reflexivity|].
    destruct (decide (ibs_index ibs = j)); [destruct (ibs_boxes ibs !! j); reflexivity|].
    reflexivity.
Qed.

Lemma stop_writing_none ibs : none_writing (stop_writing ibs) /\ ibs_index (stop_writing ibs) = 0%nat.
Proof.
  split; [|reflexivity]. unfold none_writing, stop_writing. cbn.
  apply List.Forall_map. apply List.Forall_forall. reflexivity.
Qed.

Lemma increment_focus ibs ibs' :
  focus_ok ibs -> increment_box ibs = Ok ibs' ->
  focus_ok ibs' /\ ibs_index ibs' = ((ibs_index ibs + 1) mod length (ibs_boxes ibs))%nat
  /\ map ib_content (ibs_boxes ibs') = map ib_content (ibs_boxes ibs).
Proof.
  intros Hf E. unfold increment_box, rbind in E.
  destruct (box_update _ _ ibs) as [ibs1| |] eqn:E1; try discriminate.
  destruct (box_update_lookup _ _ _ _ E1) as (_ & Hix1 & Hlen1 & _).
  rewrite Hix1, Hlen1 in E.
  destruct (Nat.eqb_spec (length (ibs_boxes ibs)) 0) as [H0|H0]; [discriminate|].
  eapply focus_move; eauto. apply Nat.mod_upper_bound. exact H0.
Qed.

Lemma decrement_focus ibs ibs' :
  focus_ok ibs -> decrement_box ibs = Ok ibs' ->
  focus_ok ibs' /\ ibs_index ibs' = (if (0 <? ibs_index ibs)%nat then ibs_index ibs - 1
                                     else length (ibs_boxes ibs) - 1)%nat
  /\ map ib_content (ibs_boxes ibs') = map ib_content (ibs_boxes ibs).
Proof.
  intros Hf E. unfold decrement_box, rbind in E.
  destruct (box_update _ _ ibs) as [ibs1| |] eqn:E1; try discriminate.
  destruct (box_update_lookup _ _ _ _ E1) as (_ & Hix1 & Hlen1 & _).
  rewrite Hix1, Hlen1 in E. destruct Hf as [Hi Hw].
  eapply focus_move; [split; eauto | | exact E1 | exact E].
  destruct (Nat.ltb_spec 0 (ibs_index ibs)); lia.
Qed.

(** Every key but Esc and Ctrl-s keeps exactly the focused box writing;
    those two end writing with no box writing and the focus on the first. *)
Theorem ib_keypress_focus key ibs ibs' o stop :
  focus_ok ibs -> ib_keypress key ibs = Ok (ibs', (o, stop)) ->
  if stop then none_writing ibs' /\ ibs_index ibs' = 0%nat else focus_ok ibs'.
Proof.
  intros Hf E. destruct key as [c|c| | | | | | |]; cbn in E.
  - unfold rbind in E. destruct (box_get _ _) as [b| |]; try discriminate.
    destruct (negb (ib_markdown b) && (c =? 10)).
    + destruct (increment_box ibs) as [i1| |] eqn:Ei; try discriminate.
      injection E as <- _ <-. exact (proj1 (increment_focus _ _ Hf Ei)).
    + destruct (box_update _ _ ibs) as [i1| |] eqn:Eu; try discriminate.
      injection E as <- _ <-. eapply focus_update_keep; [exact Hf | | exact Eu]; intros; reflexivity.
  - destruct (c =? 115).
    + injection E as <- _ <-. apply stop_writing_none.
    + unfold rbind in E. destruct (c =? 110); [|destruct (c =? 98)].
      * destruct (increment_box ibs) as [i1| |] eqn:Ei; try discriminate.
        injection E as <- _ <-. exact (proj1 (increment_focus _ _ Hf Ei)).
      * destruct (decrement_box ibs) as [i1| |] eqn:Ei; try discriminate.
        injection E as <- _ <-. exact (proj1 (decrement_focus _ _ Hf Ei)).
      * injection E as <- _ <-. exact Hf.
  - unfold rbind in E. destruct (box_update _ _ ibs) as [i1| |] eqn:Eu; try discriminate.
    injection E as <- _ <-. eapply focus_update_keep; [exact Hf | | exact Eu]; intros; reflexivity.
  - unfold rbind in E. destruct (box_get _ _) as [b| |]; try discriminate.
    destruct (0 <? ib_scroll b); [|injection E as <- _ <-; exact Hf].
    destruct (box_update _ _ ibs) as [i1| |] eqn:Eu; try discriminate.
    injection E as <- _ <-. eapply focus_update_keep; [exact Hf | | exact Eu]; intros; reflexivity.
  - unfold rbind in E. destruct (box_get _ _) as [b| |]; try discriminate.
    destruct (ib_scroll b =? 65535); [discriminate|].
    destruct (box_update _ _ ibs) as [i1| |] eqn:Eu; try discriminate.
    injection E as <- _ <-. eapply focus_update_keep; [exact Hf | | exact Eu]; intros; reflexivity.
  - injection E as <- _ <-. exact Hf.
  - injection E as <- _ <-. exact Hf.
  - injection E as <- _ <-. apply stop_writing_none.
  - injection E as <- _ <-. exact Hf.
Qed.

Lemma increment_box_ok ibs :
  focus_ok ibs -> exists ibs', increment_box ibs = Ok ibs'.
Proof.
  intros [Hi _]. unfold increment_box. rewrite box_update_ok by exact Hi. cbn [rbind].
  cbn [ibs_boxes ibs_index]. rewrite length_alter.
  destruct (Nat.eqb_spec (length (ibs_boxes ibs)) 0) as [H0|H0]; [lia|].
  eexists. apply box_update_ok. cbn. rewrite length_alter. apply Nat.mod_upper_bound. exact H0.
Qed.

Lemma decrement_box_ok ibs :
  focus_ok ibs -> exists ibs', decrement_box ibs = Ok ibs'.
Proof.
  intros [Hi _]. unfold decrement_box. rewrite box_update_ok by exact Hi. cbn [rbind].
  cbn [ibs_boxes ibs_index]. eexists. apply box_update_ok. cbn [set_index ibs_boxes].
  rewrite length_alter. destruct (Nat.ltb_spec 0 (ibs_index ibs)); lia.
Qed.

(** Ctrl-n moves the focus to the next box and Ctrl-b to the previous one,
    both wrapping around, without touching any content. *)
Theorem ctrl_n_ctrl_b_focus ibs :
  focus_ok ibs ->
  (exists ibs', ib_keypress (Ctrl 110) ibs = Ok (ibs', (None, false))
    /\ ibs_index ibs' = ((ibs_index ibs + 1) mod length (ibs_boxes ibs))%nat
    /\ map ib_content (ibs_boxes ibs') = map ib_content (ibs_boxes ibs))
  /\ (exists ibs', ib_keypress (Ctrl 98) ibs = Ok (ibs', (None, false))
    /\ ibs_index ibs' = (if (0 <? ibs_index ibs)%nat then ibs_index ibs - 1
                         else length (ibs_boxes ibs) - 1)%nat
    /\ map ib_content (ibs_boxes ibs') = map ib_content (ibs_boxes ibs)).
Proof.
  intros Hf. split.
  - destruct (increment_box_ok ibs Hf) as [ibs' E].
    destruct (increment_focus _ _ Hf E) as (_ & H1 & H2).
    exists ibs'. cbn. rewrite E. auto.
  - destruct (decrement_box_ok ibs Hf) as [ibs' E].
    destruct (decrement_focus _ _ Hf E) as (_ & H1 & H2).
    exists ibs'. cbn. rewrite E. auto.
Qed.

(** Typing a character other than a newline in a plain box appends it to
    the focused box; the other boxes and the focus do not change. *)
Theorem ib_keypress_type c ibs b :
  ibs_boxes ibs !! ibs_index ibs = Some b -> (ib_markdown b = true \/ c <> 10) ->
  exists ibs', ib_keypress (Char c) ibs = Ok (ibs', (None, false))
  /\ ibs_index ibs' = ibs_index ibs
  /\ ibs_boxes ibs' !! ibs_index ibs = Some (set_content (ib_content b ++ [c]) b)
  /\ forall j, j <> ibs_index ibs -> ibs_boxes ibs' !! j = ibs_boxes ibs !! j.
Proof.
  intros Hb Hc. cbn. unfold box_get. rewrite Hb. cbn [rbind].
  replace (negb (ib_markdown b) && (c =? 10)) with false
    by (destruct Hc as [-> | Hc]; [reflexivity | rewrite (proj2 (Z.eqb_neq c 10) Hc);
        symmetry; apply andb_false_r]).
  assert (Hi : (ibs_index ibs < length (ibs_boxes ibs))%nat) by (eapply lookup_lt_Some; eauto).
  rewrite box_update_ok by exact Hi. cbn. eexists. split; [reflexivity|].
  cbn. split; [reflexivity|]. split.
  - rewrite list_lookup_alter_eq, Hb. reflexivity.
  - intros j Hj. apply list_lookup_alter_ne. congruence.
Qed.

(** Backspace removes the last character of the focused box (nothing when
    it is empty); the other boxes and the focus do not change. *)
Theorem ib_keypress_backspace ibs b :
  ibs_boxes ibs !! ibs_index ibs = Some b ->
  exists ibs', ib_keypress Backspace ibs = Ok (ibs', (None, false))
  /\ ibs_index ibs' = ibs_index ibs
  /\ ibs_boxes ibs' !! ibs_index ibs = Some (set_content (removelast (ib_content b)) b)
  /\ forall j, j <> ibs_index ibs -> ibs_boxes ibs' !! j = ibs_boxes ibs !! j.
Proof.
  intros Hb. cbn.
  assert (Hi : (ibs_index ibs < length (ibs_boxes ibs))%nat) by (eapply lookup_lt_Some; eauto).
  rewrite box_update_ok by exact Hi. cbn. eexists. split; [reflexivity|].
  cbn. split; [reflexivity|]. split.
  - rewrite list_lookup_alter_eq, Hb. reflexivity.
  - intros j Hj. apply list_lookup_alter_ne. congruence.
Qed.

(** Ctrl-s hands over the boxes as they were and ends writing, leaving
    every box empty and none writing, with the focus on the first. *)
Theorem ib_keypress_save ibs :
  exists ibs', ib_keypress (Ctrl 115) ibs = Ok (ibs', (Some (ibs_boxes ibs), true))
  /\ Forall (fun b => ib_content b = [] /\ ib_is_writing b = false) (ibs_boxes ibs')
  /\ length (ibs_boxes ibs') = length (ibs_boxes ibs) /\ ibs_index ibs' = 0%nat.
Proof.
  eexists. split; [reflexivity|]. cbn. rewrite !map_map. split; [|split; [apply length_map | reflexivity]].
  apply List.Forall_map. apply List.Forall_forall. intros; split; reflexivity.
Qed.

Lemma ib_keypress_focus_witness :
  exists ibs', ib_keypress (Ctrl 110) form_sample = Ok (ibs', (None, false)) /\ focus_ok ibs'.
Proof.
  eexists. split; [vm_compute; reflexivity|].
  apply (ib_keypress_focus (Ctrl 110) form_sample _ None false).
  - split; [cbn; lia|]. intros j b Hj.
    destruct j as [|[|[|j]]]; cbn in Hj; try discriminate; injection Hj as <-; reflexivity.
  - vm_compute. reflexivity.
Defined.

Lemma ctrl_n_ctrl_b_focus_witness :
  (exists ibs', ib_keypress (Ctrl 110) form_sample = Ok (ibs', (None, false))
    /\ ibs_index ibs' = 1%nat
    /\ map ib_content (ibs_boxes ibs') = [txt "milk"; []; []])
  /\ (exists ibs', ib_keypress (Ctrl 98) form_sample = Ok (ibs', (None, false))
    /\ ibs_index ibs' = 2%nat
    /\ map ib_content (ibs_boxes ibs') = [txt "milk"; []; []]).
Proof.
  apply (ctrl_n_ctrl_b_focus form_sample).
  split; [cbn; lia|]. intros j b Hj.
  destruct j as [|[|[|j]]]; cbn in Hj; try discriminate; injection Hj as <-; reflexivity.
Defined.

Lemma ib_keypress_type_witness :
  exists ibs', ib_keypress (Char 115) form_sample = Ok (ibs', (None, false))
  /\ ibs_index ibs' = 0%nat
  /\ ibs_boxes ibs' !! 0%nat = Some (mk_box (txt "Task") true (txt "milks") false 10 0)
  /\ forall j, j <> 0%nat -> ibs_boxes ibs' !! j = ibs_boxes form_sample !! j.
Proof.
  apply (ib_keypress_type 115 form_sample (mk_box (txt "Task") true (txt "milk") false 10 0)).
  - reflexivity.
  - right. lia.
Defined.

Lemma ib_keypress_backspace_witness :
  exists ibs', ib_keypress Backspace form_sample = Ok (ibs', (None, false))
  /\ ibs_index ibs' = 0%nat
  /\ ibs_boxes ibs' !! 0%nat = Some (mk_box (txt "Task") true (txt "mil") false 10 0)
  /\ forall j, j <> 0%nat -> ibs_boxes ibs' !! j = ibs_boxes form_sample !! j.
Proof.
  apply (ib_keypress_backspace form_sample (mk_box (txt "Task") true (txt "milk") false 10 0)).
  reflexivity.
Defined.

Lemma start_writing_spec ibs :
  (ibs_boxes ibs = [] -> start_writing ibs = Panic)
  /\ (ibs_boxes ibs <> [] ->
      exists ibs', start_writing ibs = Ok ibs' /\ focus_ok ibs' /\ ibs_index ibs' = 0%nat
      /\ map ib_content (ibs_boxes ibs') = map ib_content (ibs_boxes ibs)).
Proof.
  unfold start_writing, stop_writing. split.
  - intros E. unfold box_update. cbn. rewrite E. reflexivity.
  - intros E. destruct (ibs_boxes ibs) as [|b bs] eqn:Eb; [congruence|].
    rewrite box_update_ok by (cbn; lia). eexists. split; [reflexivity|].
    cbn [ibs_boxes ibs_index]. split; [|split; [reflexivity|]].
    + split; [cbn; lia|]. intros j x Hj. destruct j as [|j]; cbn in Hj.
      * injection Hj as <-. reflexivity.
      * apply list_elem_of_lookup_2, list_elem_of_In, in_map_iff in Hj as (y & <- & _).
        reflexivity.
    + cbn. rewrite !map_map. reflexivity.
Qed.

(** [InputBoxes::start_writing] panics on a form without boxes; otherwise
    it puts the focus on the first box, the only one writing, and keeps
    every content. *)
Theorem start_writing_focus ibs :
  (ibs_boxes ibs = [] -> start_writing ibs = Panic)
  /\ (ibs_boxes ibs <> [] ->
      exists ibs', start_writing ibs = Ok ibs' /\ focus_ok ibs' /\ ibs_index ibs' = 0%nat
      /\ map ib_content (ibs_boxes ibs') = map ib_content (ibs_boxes ibs)).
Proof. exact (start_writing_spec ibs). Qed.

Lemma u16_sum_ok acc l :
  Forall (fun x => 0 <= x) l -> 0 <= acc -> acc + sum_Z l <= 65535 ->
  u16_sum acc l = Ok (acc + sum_Z l).
Proof.
  unfold sum_Z. revert acc. induction l as [|x l IH]; intros acc Hl Ha Hs; cbn in *.
  - f_equal. lia.
  - inversion Hl as [|? ? Hx Hl']; subst.
    assert (0 <= fold_right Z.add 0 l).
    { clear -Hl'. induction Hl' as [|y l Hy _ IH']; cbn; lia. }
    destruct (Z.ltb_spec 65535 (acc + x)); [lia|].
    rewrite IH by (auto; lia). f_equal. lia.
Qed.

Lemma u16_sum_val acc l v : u16_sum acc l = Ok v -> v = acc + sum_Z l.
Proof.
  unfold sum_Z. revert acc. induction l as [|x l IH]; intros acc E; cbn in *.
  - injection E. lia.
  - destruct (65535 <? acc + x); [discriminate|]. apply IH in E. lia.
Qed.

Lemma u16_sum_not_err acc l e : u16_sum acc l <> Err e.
Proof.
  revert acc. induction l as [|x l IH]; intros acc; cbn; [discriminate|].
  destruct (65535 <? acc + x); [discriminate | apply IH].
Qed.

(** With box percentages summing to at most 80, [get_constraints] returns
    the tab bar, a filler, one constraint per box and the help bar,
    together exactly 100 percent; with a larger sum it panics. *)
Theorem get_constraints_total ibs :
  Forall (fun b => 0 <= ib_percent b) (ibs_boxes ibs) ->
  (sum_Z (map ib_percent (ibs_boxes ibs)) <= 80 ->
   exists cs, get_constraints ibs = Ok cs
   /\ sum_Z (map constraint_percent cs) = 100
   /\ length cs = (length (ibs_boxes ibs) + 3)%nat)
  /\ (80 < sum_Z (map ib_percent (ibs_boxes ibs)) -> get_constraints ibs = Panic).
Proof.
  intros Hp. set (s := sum_Z (map ib_percent (ibs_boxes ibs))).
  assert (Hn : Forall (fun x => 0 <= x) (map ib_percent (ibs_boxes ibs)))
    by (apply List.Forall_map; exact Hp).
  split.
  - intros Hs. unfold get_constraints.
    rewrite u16_sum_ok by (auto; lia). cbn [rbind].
    assert (E1 : u16_sub 100 TAB_BOX_PERCENT = Ok 93) by reflexivity.
    rewrite E1. cbn [rbind]. fold s.
    assert (E2 : u16_sub 93 (0 + s) = Ok (93 - s)).
    { unfold u16_sub. destruct (Z.ltb_spec 93 (0 + s)); [lia | f_equal; lia]. }
    rewrite E2. cbn [rbind].
    assert (E3 : u16_sub (93 - s) HELP_BOX_PERCENT = Ok (80 - s)).
    { unfold u16_sub, HELP_BOX_PERCENT. destruct (Z.ltb_spec (93 - s) 13); [lia | f_equal; lia]. }
    rewrite E3. cbn [rbind]. eexists. split; [reflexivity|]. split.
    + assert (Hshift : forall (l : list Z) a, fold_right Z.add a l = fold_right Z.add 0 l + a).
      { induction l as [|y l IH]; intros a; cbn; [lia | rewrite IH; lia]. }
      unfold sum_Z in *. cbn [app map fold_right constraint_percent].
      rewrite map_app, fold_right_app, map_map. cbn [map fold_right constraint_percent].
      rewrite Hshift. unfold HELP_BOX_PERCENT, TAB_BOX_PERCENT. subst s. unfold sum_Z in *.
      change (map (fun x : InputBox => ib_percent x)) with (map ib_percent). lia.
    + rewrite length_app, length_app, length_map. cbn. lia.
  - intros Hs. unfold get_constraints.
    destruct (u16_sum 0 (map ib_percent (ibs_boxes ibs))) as [v| |] eqn:E; cbn [rbind].
    + apply u16_sum_val in E.
      assert (E1 : u16_sub 100 TAB_BOX_PERCENT = Ok 93) by reflexivity.
      rewrite E1. cbn [rbind]. unfold u16_sub at 1.
      destruct (Z.ltb_spec 93 v); cbn [rbind]; [reflexivity|].
      unfold u16_sub, HELP_BOX_PERCENT.
      destruct (Z.ltb_spec (93 - v) 13); [reflexivity | fold s in E; lia].
    + exfalso. eapply u16_sum_not_err; eauto.
    + reflexivity.
Qed.

(** Loading an entry into the edit form and saving the form unchanged gives
    back the entry itself once merged with the original (which restores the
    id, the timestamp and the done flag), as long as its tags (and people)
    survive the ", " join and the comma split. *)
Theorem edit_form_round_trip g now :
  form_fields_ok g ->
  exists ibs ne, to_input_boxes g = Ok ibs
  /\ from_input_boxes (entry_id g) (entry_kind g) (ibs_boxes ibs) now = Ok ne
  /\ merge_with_entry ne g = g.
Proof.
  destruct g as [[]|[]|[]|[]]; cbn [form_fields_ok entry_tags entry_kind entry_id];
    intros H; do 2 eexists; (split; [reflexivity | split; [reflexivity|]]);
    cbn; unfold field_list_ok in *; f_equal; f_equal; apply split_list_join; tauto.
Qed.

(** An entry without tags does not survive an unchanged edit: the empty
    Tags box comes back as one empty tag. *)
Theorem edit_form_untagged g now :
  entry_tags g = [] ->
  exists ibs ne, to_input_boxes g = Ok ibs
  /\ from_input_boxes (entry_id g) (entry_kind g) (ibs_boxes ibs) now = Ok ne
  /\ entry_tags (merge_with_entry ne g) = [[]].
Proof.
  destruct g as [[]|[]|[]|[]]; cbn [entry_tags entry_kind entry_id t_tags j_tags r_tags e_tags];
    intros ->;
    do 2 eexists; (split; [reflexivity | split; [reflexivity|]]); reflexivity.
Qed.

Lemma start_writing_focus_witness :
  exists ibs', start_writing form_sample = Ok ibs' /\ focus_ok ibs' /\ ibs_index ibs' = 0%nat
  /\ map ib_content (ibs_boxes ibs') = [txt "milk"; []; []].
Proof.
  apply (proj2 (start_writing_focus form_sample)). discriminate.
Defined.

Lemma get_constraints_total_witness :
  exists cs, get_constraints form_sample = Ok cs
  /\ sum_Z (map constraint_percent cs) = 100 /\ length cs = 6%nat.
Proof.
  apply (proj1 (get_constraints_total form_sample ltac:(repeat constructor; cbn; lia))).
  cbn. lia.
Defined.

Lemma edit_form_round_trip_witness :
  exists ibs ne, to_input_boxes c1_note = Ok ibs
  /\ from_input_boxes 7 Task (ibs_boxes ibs) T1 = Ok ne
  /\ merge_with_entry ne c1_note = c1_note.
Proof.
  apply (edit_form_round_trip c1_note T1).
  split; [discriminate|].
  repeat constructor; try (vm_compute; reflexivity);
    intros Hin; vm_compute in Hin; intuition discriminate.
Defined.

Lemma edit_form_untagged_witness :
  exists ibs ne, to_input_boxes c1_untagged = Ok ibs
  /\ from_input_boxes 3 Journal (ibs_boxes ibs) T1 = Ok ne
  /\ entry_tags (merge_with_entry ne c1_untagged) = [[]].
Proof.
  apply (edit_form_untagged c1_untagged T1). reflexivity.
Defined.

Lemma mseq_ret {S A} (m : M S unit) (a : A) s :
  (m ;;! mret a) s
  = (fst (m s), match snd (m s) with Ok _ => Ok a | Err e => Err e | Panic => Panic end).
Proof. unfold mbind, mret. destruct (m s) as [s' [u| |]]; reflexivity. Qed.

Lemma tab_keypress_shape key now s :
  match GTabs.tabs s !! GTabs.index s with
  | Some t => fst (GTabs.tab_keypress key now s)
              = GTabs.mk_tabs (<[GTabs.index s := fst (GApp.keypress key now t)]> (GTabs.tabs s))
                  (GTabs.index s)
  | None => GTabs.tab_keypress key now s = (s, Panic)
  end.
Proof.
  unfold GTabs.tab_keypress. destruct (GTabs.tabs s !! GTabs.index s) as [t|]; [|reflexivity].
  destruct (GApp.keypress key now t). reflexivity.
Qed.

(** How [GooseberryTabs::keypress] unfolds once [is_writing] is known. *)
Lemma tabs_keypress_unfold key now s :
  GTabs.keypress key now s
  = match GTabs.is_writing s with
    | Ok w =>
        if negb w then
          match key with
          | Char c =>
              if c =? 113 then (s, Ok true) else (GTabs.tab_keypress key now ;;! mret false) s
          | Right =>
              match GTabs.next s with
              | Ok s' => (s', Ok false) | Err e => (s, Err e) | Panic => (s, Panic)
              end
          | Left =>
              match GTabs.previous s with
              | Ok s' => (s', Ok false) | Err e => (s, Err e) | Panic => (s, Panic)
              end
          | _ => (GTabs.tab_keypress key now ;;! mret false) s
          end
        else (GTabs.tab_keypress key now ;;! mret false) s
    | Err e => (s, Err e)
    | Panic => (s, Panic)
    end.
Proof.
  unfold GTabs.keypress, mbind at 1, mget. cbn [mbind mlift].
  destruct (GTabs.is_writing s) as [w| |]; [|reflexivity|reflexivity].
  destruct w; cbn [negb]; [reflexivity|].
  destruct key; try reflexivity.
  all: try (destruct (_ =? 113); reflexivity).
  all: unfold mbind, mlift, mput.
  all: try (destruct (GTabs.previous s) as [s'| |]; reflexivity).
  all: destruct (GTabs.next s) as [s'| |]; reflexivity.
Qed.

Lemma tab_keypress_frame key now s :
  GTabs.index (fst (GTabs.tab_keypress key now s)) = GTabs.index s
  /\ length (GTabs.tabs (fst (GTabs.tab_keypress key now s))) = length (GTabs.tabs s)
  /\ forall j, j <> GTabs.index s ->
     GTabs.tabs (fst (GTabs.tab_keypress key now s)) !! j = GTabs.tabs s !! j.
Proof.
  pose proof (tab_keypress_shape key now s) as H.
  destruct (GTabs.tabs s !! GTabs.index s) as [t|]; rewrite H; cbn; [|auto].
  split; [reflexivity|]. split; [apply length_insert|].
  intros j Hj. apply list_lookup_insert_ne. congruence.
Qed.

Lemma next_spec s s' :
  GTabs.next s = Ok s' ->
  GTabs.tabs s' = GTabs.tabs s
  /\ GTabs.index s' = ((GTabs.index s + 1) mod length (GTabs.tabs s))%nat
  /\ length (GTabs.tabs s) <> 0%nat.
Proof.
  unfold GTabs.next. destruct (Nat.eqb_spec (length (GTabs.tabs s)) 0); [discriminate|].
  intros E. injection E as <-. cbn. auto.
Qed.

Lemma previous_spec s s' :
  GTabs.previous s = Ok s' ->
  GTabs.tabs s' = GTabs.tabs s
  /\ ((0 < GTabs.index s /\ GTabs.index s' = GTabs.index s - 1)
      \/ (GTabs.index s = 0 /\ length (GTabs.tabs s) <> 0
          /\ GTabs.index s' = length (GTabs.tabs s) - 1))%nat.
Proof.
  unfold GTabs.previous. destruct (Nat.ltb_spec 0 (GTabs.index s)).
  - intros E. injection E as <-. cbn. split; [reflexivity | left; auto].
  - destruct (Nat.eqb_spec (length (GTabs.tabs s)) 0); [discriminate|].
    intros E. injection E as <-. cbn. split; [reflexivity | right; split; [lia | auto]].
Qed.

Lemma is_writing_active s w :
  GTabs.is_writing s = Ok w ->
  exists t, GTabs.tabs s !! GTabs.index s = Some t /\ GApp.is_writing t = w.
Proof.
  unfold GTabs.is_writing, GTabs.active.
  destruct (GTabs.tabs s !! GTabs.index s) as [t|]; cbn; [|discriminate].
  intros E. injection E as <-. eauto.
Qed.

Lemma mod_succ i n : (i < n)%nat -> ((i + 1) mod n = if (i + 1 =? n)%nat then 0 else i + 1)%nat.
Proof.
  intros H. destruct (Nat.eqb_spec (i + 1) n) as [E|E].
  - rewrite E. apply Nat.Div0.mod_same.
  - apply Nat.mod_small. lia.
Qed.

(** The application quits ([Ok true]) exactly on the key 'q' while the
    active tab is not writing, and then leaves its state untouched; a 'q'
    typed in writing mode goes to the form. *)
Theorem tabs_quit key now s s' :
  GTabs.keypress key now s = (s', Ok true)
  <-> key = Char 113 /\ GTabs.is_writing s = Ok false /\ s' = s.
Proof.
  rewrite tabs_keypress_unfold. split.
  - destruct (GTabs.is_writing s) as [w| |]; [|discriminate|discriminate].
    assert (Hseq : forall (m : M GTabs.GooseberryTabs unit) st, (m ;;! mret false) st <> (s', Ok true)).
    { intros m st E. rewrite mseq_ret in E. injection E as _ E.
      destruct (snd (m st)); discriminate. }
    destruct w; cbn [negb].
    + intros E. exfalso. exact (Hseq _ _ E).
    + destruct key; intros E; try (exfalso; exact (Hseq _ _ E)).
      * destruct (Z.eqb_spec c 113) as [->|]; [injection E as <-; auto|].
        exfalso. exact (Hseq _ _ E).
      * destruct (GTabs.previous s); discriminate.
      * destruct (GTabs.next s); discriminate.
  - intros (-> & -> & ->). reflexivity.
Qed.

Lemma tabs_keypress_frame_spec key now s s' r :
  GTabs.keypress key now s = (s', r) ->
  length (GTabs.tabs s') = length (GTabs.tabs s)
  /\ (forall j, j <> GTabs.index s -> GTabs.tabs s' !! j = GTabs.tabs s !! j)
  /\ ((GTabs.index s < length (GTabs.tabs s))%nat -> (GTabs.index s' < length (GTabs.tabs s'))%nat)
  /\ (GTabs.index s' = GTabs.index s
      \/ ((key = Left \/ key = Right) /\ GTabs.tabs s' = GTabs.tabs s)).
Proof.
  rewrite tabs_keypress_unfold.
  assert (Htk : forall key', (GTabs.tab_keypress key' now ;;! mret false) s = (s', r) ->
    length (GTabs.tabs s') = length (GTabs.tabs s)
    /\ (forall j, j <> GTabs.index s -> GTabs.tabs s' !! j = GTabs.tabs s !! j)
    /\ ((GTabs.index s < length (GTabs.tabs s))%nat -> (GTabs.index s' < length (GTabs.tabs s'))%nat)
    /\ (GTabs.index s' = GTabs.index s
        \/ ((key = Left \/ key = Right) /\ GTabs.tabs s' = GTabs.tabs s))).
  { intros key' E. rewrite mseq_ret in E. injection E as Es _.
    destruct (tab_keypress_frame key' now s) as (H1 & H2 & H3). rewrite Es in H1, H2, H3.
    rewrite H1, H2. split; [reflexivity | split; [exact H3 | split; [auto | left; reflexivity]]]. }
  assert (Hid : s = s' ->
    length (GTabs.tabs s') = length (GTabs.tabs s)
    /\ (forall j, j <> GTabs.index s -> GTabs.tabs s' !! j = GTabs.tabs s !! j)
    /\ ((GTabs.index s < length (GTabs.tabs s))%nat -> (GTabs.index s' < length (GTabs.tabs s'))%nat)
    /\ (GTabs.index s' = GTabs.index s
        \/ ((key = Left \/ key = Right) /\ GTabs.tabs s' = GTabs.tabs s))).
  { intros <-. auto. }
  destruct (GTabs.is_writing s) as [w| |]; [| intros E; injection E as E _; auto
                                            | intros E; injection E as E _; auto].
  destruct w; cbn [negb]; [apply Htk|].
  destruct key; try apply Htk.
  - destruct (c =? 113); [intros E; injection E as E _; auto | apply Htk].
  - destruct (GTabs.previous s) as [s1| |] eqn:Ep; intros E; injection E as E _; subst; auto.
    destruct (previous_spec _ _ Ep) as (Ht & Hi). rewrite Ht.
    split; [reflexivity | split; [auto | split; [lia | right; auto]]].
  - destruct (GTabs.next s) as [s1| |] eqn:En; intros E; injection E as E _; subst; auto.
    destruct (next_spec _ _ En) as (Ht & Hi & Hn). rewrite Ht, Hi.
    split; [reflexivity | split; [auto | split; [intros; apply Nat.mod_upper_bound; exact Hn
                                                 | right; auto]]].
Qed.

(** A keystroke changes at most the active tab and keeps the number of
    tabs; only Left and Right move the active index, and then no tab
    changes; an active index in range stays in range. *)
Theorem tabs_keypress_frame key now s s' r :
  GTabs.keypress key now s = (s', r) ->
  length (GTabs.tabs s') = length (GTabs.tabs s)
  /\ (forall j, j <> GTabs.index s -> GTabs.tabs s' !! j = GTabs.tabs s !! j)
  /\ ((GTabs.index s < length (GTabs.tabs s))%nat -> (GTabs.index s' < length (GTabs.tabs s'))%nat)
  /\ (GTabs.index s' = GTabs.index s
      \/ ((key = Left \/ key = Right) /\ GTabs.tabs s' = GTabs.tabs s)).
Proof. exact (tabs_keypress_frame_spec key now s s' r). Qed.

(** Only the active tab is ever in writing mode: a keystroke keeps every
    other tab out of writing mode. *)
Theorem only_active_writing_keep key now s s' r :
  only_active_writing s -> GTabs.keypress key now s = (s', r) -> only_active_writing s'.
Proof.
  intros Hinv E. pose proof (tabs_keypress_frame_spec _ _ _ _ _ E) as (_ & Hfr & _ & Hix).
  rewrite tabs_keypress_unfold in E.
  destruct Hix as [Hix | (_ & Ht)].
  - intros j t Hj Hl. rewrite Hix in Hj. rewrite Hfr in Hl by exact Hj. exact (Hinv j t Hj Hl).
  - destruct (GTabs.is_writing s) as [w| |] eqn:Ew;
      [| injection E as <- _; exact Hinv | injection E as <- _; exact Hinv].
    intros j t Hj Hl. rewrite Ht in Hl.
    destruct (Nat.eq_dec j (GTabs.index s)) as [->|Hne]; [|exact (Hinv j t Hne Hl)].
    destruct (is_writing_active _ _ Ew) as (t0 & Ht0 & Hw). rewrite Hl in Ht0.
    injection Ht0 as <-. destruct w; [|exact Hw].
    (* in writing mode the key went to the active tab, which keeps the index *)
    cbn [negb] in E. rewrite mseq_ret in E. injection E as Es _.
    destruct (tab_keypress_frame key now s) as (Hi & _). rewrite Es in Hi. congruence.
Qed.

Lemma is_writing_moved s j :
  only_active_writing s -> GTabs.is_writing s = Ok false -> (j < length (GTabs.tabs s))%nat ->
  GTabs.is_writing (GTabs.mk_tabs (GTabs.tabs s) j) = Ok false.
Proof.
  intros Hinv Hw Hj. destruct (is_writing_active _ _ Hw) as (t0 & Ht0 & Hw0).
  destruct (lookup_lt_is_Some_2 _ _ Hj) as [t Ht].
  unfold GTabs.is_writing, GTabs.active. cbn [GTabs.tabs GTabs.index]. rewrite Ht. cbn.
  destruct (Nat.eq_dec j (GTabs.index s)) as [->|Hne].
  - rewrite Ht0 in Ht. injection Ht as <-. rewrite Hw0. reflexivity.
  - rewrite (Hinv j t Hne Ht). reflexivity.
Qed.

(** Outside writing mode, Right then Left, and Left then Right, come back
    to the same state (the active index wraps around both ways). *)
Theorem tabs_right_left s now :
  only_active_writing s -> (GTabs.index s < length (GTabs.tabs s))%nat ->
  GTabs.is_writing s = Ok false ->
  (exists s', GTabs.keypress Right now s = (s', Ok false)
              /\ GTabs.keypress Left now s' = (s, Ok false))
  /\ (exists s', GTabs.keypress Left now s = (s', Ok false)
                 /\ GTabs.keypress Right now s' = (s, Ok false)).
Proof.
  destruct s as [ts i]. cbn [GTabs.tabs GTabs.index]. intros Hinv Hi Hw.
  assert (Hn : length ts <> 0%nat) by lia.
  split.
  - exists (GTabs.mk_tabs ts ((i + 1) mod length ts)).
    rewrite tabs_keypress_unfold, Hw. cbn [negb]. unfold GTabs.next. cbn [GTabs.tabs GTabs.index].
    destruct (Nat.eqb_spec (length ts) 0) as [|_]; [lia|]. split; [reflexivity|].
    rewrite tabs_keypress_unfold.
    rewrite (is_writing_moved (GTabs.mk_tabs ts i)); cbn [GTabs.tabs]; auto;
      [| apply Nat.mod_upper_bound; exact Hn].
    cbn [negb]. unfold GTabs.previous. cbn [GTabs.tabs GTabs.index].
    rewrite (mod_succ i (length ts) Hi).
    destruct (Nat.eqb_spec (i + 1) (length ts)) as [E|E].
    + cbn. destruct (Nat.eqb_spec (length ts) 0); [lia|]. do 3 f_equal. lia.
    + destruct (Nat.ltb_spec 0 (i + 1)); [|lia]. do 3 f_equal. lia.
  - assert (Hp : GTabs.previous (GTabs.mk_tabs ts i)
                 = Ok (GTabs.mk_tabs ts (if (0 <? i)%nat then i - 1 else length ts - 1))).
    { unfold GTabs.previous. cbn [GTabs.tabs GTabs.index].
      destruct (Nat.ltb_spec 0 i); [reflexivity|].
      destruct (Nat.eqb_spec (length ts) 0); [lia | reflexivity]. }
    eexists. rewrite tabs_keypress_unfold, Hw. cbn [negb]. rewrite Hp. split; [reflexivity|].
    rewrite tabs_keypress_unfold.
    rewrite (is_writing_moved (GTabs.mk_tabs ts i)); cbn [GTabs.tabs]; auto;
      [| destruct (Nat.ltb_spec 0 i); lia].
    cbn [negb]. unfold GTabs.next. cbn [GTabs.tabs GTabs.index].
    destruct (Nat.eqb_spec (length ts) 0); [lia|].
    destruct (Nat.ltb_spec 0 i).
    + replace (i - 1 + 1)%nat with i by lia. rewrite Nat.mod_small by lia. reflexivity.
    + replace (length ts - 1 + 1)%nat with (length ts) by lia.
      rewrite Nat.Div0.mod_same. do 3 f_equal. lia.
Qed.

Lemma gapp_from_folder_shape t files fs st :
  GApp.from_folder t files fs = Ok st -> GApp.entry_type st = t /\ GApp.is_writing st = false.
Proof.
  unfold GApp.from_folder.
  destruct (GApp.load_files files empty []) as [ev| |]; cbn [rbind]; try discriminate.
  destruct (GApp.first_free_id ev.2) as [nid| |]; cbn [rbind]; try discriminate.
  destruct (get_input_boxes t) as [ibs| |]; cbn [rbind]; try discriminate.
  intros E. injection E as <-. auto.
Qed.

(** [GooseberryTabs::from_folder] opens one tab per entry type, in the
    order Task, Journal, Research, Event, none of them writing, with the
    first one active. *)
Theorem tabs_from_folder glob fs s :
  GTabs.from_folder glob fs = Ok s ->
  map GApp.entry_type (GTabs.tabs s) = [Task; Journal; Research; Event]
  /\ GTabs.index s = 0%nat
  /\ Forall (fun t => GApp.is_writing t = false) (GTabs.tabs s).
Proof.
  unfold GTabs.from_folder.
  destruct (GApp.from_folder Task _ fs) as [t1| |] eqn:E1; cbn [rbind]; try discriminate.
  destruct (GApp.from_folder Journal _ fs) as [t2| |] eqn:E2; cbn [rbind]; try discriminate.
  destruct (GApp.from_folder Research _ fs) as [t3| |] eqn:E3; cbn [rbind]; try discriminate.
  destruct (GApp.from_folder Event _ fs) as [t4| |] eqn:E4; cbn [rbind]; try discriminate.
  intros E. injection E as <-.
  apply gapp_from_folder_shape in E1 as [H1 W1], E2 as [H2 W2], E3 as [H3 W3], E4 as [H4 W4].
  cbn. rewrite H1, H2, H3, H4. split; [reflexivity | split; [reflexivity|]].
  repeat constructor; assumption.
Qed.

Lemma tabs_quit_witness :
  GTabs.keypress (Char 113) T1 browse_tabs = (browse_tabs, Ok true).
Proof.
  apply (proj2 (tabs_quit (Char 113) T1 browse_tabs browse_tabs)).
  split; [reflexivity | split; reflexivity].
Defined.

Lemma tabs_keypress_frame_witness :
  let s' := fst (GTabs.keypress (Char 113) T1 writing_tabs) in
  length (GTabs.tabs s') = 2%nat
  /\ (forall j, j <> 1%nat -> GTabs.tabs s' !! j = GTabs.tabs writing_tabs !! j)
  /\ ((1 < 2)%nat -> (GTabs.index s' < length (GTabs.tabs s'))%nat)
  /\ (GTabs.index s' = 1%nat
      \/ ((Char 113 = Left \/ Char 113 = Right) /\ GTabs.tabs s' = GTabs.tabs writing_tabs)).
Proof.
  apply (tabs_keypress_frame (Char 113) T1 writing_tabs _
           (snd (GTabs.keypress (Char 113) T1 writing_tabs))).
  reflexivity.
Defined.

Lemma only_active_writing_keep_witness :
  only_active_writing (fst (GTabs.keypress (Char 113) T1 writing_tabs)).
Proof.
  apply (only_active_writing_keep (Char 113) T1 writing_tabs _
           (snd (GTabs.keypress (Char 113) T1 writing_tabs))).
  - intros j t Hj Hl. destruct j as [|[|j]]; cbn in Hl, Hj; try discriminate; [|lia].
    injection Hl as <-. reflexivity.
  - reflexivity.
Defined.

Lemma tabs_right_left_witness :
  (exists s', GTabs.keypress Right T1 browse_tabs = (s', Ok false)
              /\ GTabs.keypress Left T1 s' = (browse_tabs, Ok false))
  /\ (exists s', GTabs.keypress Left T1 browse_tabs = (s', Ok false)
                 /\ GTabs.keypress Right T1 s' = (browse_tabs, Ok false)).
Proof.
  apply tabs_right_left.
  - intros j t Hj Hl. destruct j as [|[|[|j]]]; cbn in Hl; try discriminate;
      injection Hl as <-; reflexivity.
  - cbn. lia.
  - reflexivity.
Defined.

Lemma tabs_from_folder_witness :
  exists s, GTabs.from_folder sample_glob (mk_storage true empty) = Ok s
  /\ map GApp.entry_type (GTabs.tabs s) = [Task; Journal; Research; Event]
  /\ GTabs.index s = 0%nat
  /\ Forall (fun t => GApp.is_writing t = false) (GTabs.tabs s).
Proof.
  eexists. split; [reflexivity|].
  apply (tabs_from_folder sample_glob (mk_storage true empty)). reflexivity.
Defined.

(** On the Task tab, 't', an id and Enter flip the done flag of that task,
    write the task's new encoding to its file, and end ID entry mode. *)
Theorem gapp_toggle_confirm st now e :
  GApp.is_writing st = false -> GApp.picking_char st = Some 116 ->
  GApp.entry_type st = Task -> GApp.entries st !! GApp.selected_entry st = Some e ->
  st_writable (GApp.folder st) = true ->
  exists st', GApp.keypress (Char 10) now st = (st', Ok tt)
  /\ GApp.entries st' = <[GApp.selected_entry st := toggle_entry e]> (GApp.entries st)
  /\ st_files (GApp.folder st')
     = <[file_name Task (GApp.selected_entry st) := encode (toggle_entry e)]>
         (st_files (GApp.folder st))
  /\ GApp.visible_ids st' = GApp.visible_ids st
  /\ GApp.picking_entry st' = false /\ GApp.selected_entry st' = 0
  /\ GApp.picking_char st' = None.
Proof.
  destruct st as [t fo es vis w ibs nid [wr files] sc pc pe se ed]; cbn.
  intros -> -> -> He ->.
  unfold GApp.keypress, mbind, mget, mlift, mret, GApp.modify; cbn.
  unfold GApp.dispatch, GApp.toggle_task_entry, mbind, mget, mlift, mret, GApp.modify; cbn.
  rewrite He. cbn.
  unfold GApp.save_entry, mbind, mget, mlift, mret, GApp.modify; cbn.
  rewrite bool_decide_true by reflexivity. cbn. rewrite lookup_insert_eq. cbn.
  eexists. split; [reflexivity|]. cbn. repeat split.
Qed.

Lemma pres_ret {S A} (P : S -> Prop) (a : A) : preserves P (mret a).
Proof. intros s s' r Hs E. injection E as <- _. exact Hs. Qed.

Lemma pres_get {S} (P : S -> Prop) : preserves P mget.
Proof. intros s s' r Hs E. injection E as <- _. exact Hs. Qed.

Lemma pres_lift {S A} (P : S -> Prop) (x : res A) : preserves P (mlift x).
Proof. intros s s' r Hs E. injection E as <- _. exact Hs. Qed.

Lemma pres_bind {S A B} (P : S -> Prop) (m : M S A) (k : A -> M S B) :
  preserves P m -> (forall a, preserves P (k a)) -> preserves P (mbind m k).
Proof.
  intros Hm Hk s s' r Hs E. unfold mbind in E.
  destruct (m s) as [s1 [a| |]] eqn:E1.
  - exact (Hk a s1 s' r (Hm s s1 _ Hs E1) E).
  - injection E as <- _. exact (Hm s s1 _ Hs E1).
  - injection E as <- _. exact (Hm s s1 _ Hs E1).
Qed.

Lemma pres_modify (P : GApp.tab -> Prop) f :
  (forall s, P s -> P (f s)) -> preserves P (GApp.modify f).
Proof. intros Hf s s' r Hs E. injection E as <- _. exact (Hf s Hs). Qed.

Lemma ids_match_save id : preserves ids_match (GApp.save_entry id).
Proof.
  unfold GApp.save_entry. apply pres_bind; [apply pres_get | intros st].
  apply pres_bind; [apply pres_lift | intros e].
  apply pres_bind; [apply pres_lift | intros fs].
  apply pres_modify. unfold ids_match. cbn. auto.
Qed.

Lemma ids_match_add bs id now : preserves ids_match (GApp.add_entry bs id now).
Proof.
  unfold GApp.add_entry. apply pres_bind; [apply pres_get | intros st].
  apply pres_bind; [apply pres_lift | intros ne].
  apply pres_bind; [| intros _; apply ids_match_save].
  apply pres_modify. intros s Hs i. cbn.
  destruct (decide (i = id)) as [->|Hne].
  - rewrite lookup_insert_eq. split; [intros _|intros _; eauto].
    destruct (GApp.entries s !! id) eqn:Es.
    + apply Hs. rewrite Es. eauto.
    + apply in_or_app. right. left. reflexivity.
  - rewrite lookup_insert_ne by congruence. rewrite (Hs i).
    destruct (GApp.entries s !! id); [tauto|].
    rewrite in_app_iff. cbn. intuition congruence.
Qed.

Lemma ids_match_toggle : preserves ids_match GApp.toggle_task_entry.
Proof.
  intros s s' r Hs E. unfold GApp.toggle_task_entry, mbind, mget, mlift, mret in E.
  destruct (bool_decide (GApp.entry_type s = Task)); [|injection E as <- _; exact Hs].
  destruct (GApp.entries s !! GApp.selected_entry s) as [e|] eqn:Ee; cbn in E;
    [|injection E as <- _; exact Hs].
  assert (H1 : ids_match (GApp.upd_entries
                 (<[GApp.selected_entry s := toggle_entry e]> (GApp.entries s)) s)).
  { intros i. cbn. destruct (decide (i = GApp.selected_entry s)) as [->|Hne].
    - rewrite lookup_insert_eq, <- (Hs (GApp.selected_entry s)), Ee. split; eauto.
    - rewrite lookup_insert_ne by congruence. apply Hs. }
  exact (ids_match_save _ _ _ _ H1 E).
Qed.

Ltac pres_tac :=
  repeat match goal with
  | |- preserves _ (mbind _ _) => apply pres_bind; [|intros ?]
  | |- preserves _ mget => apply pres_get
  | |- preserves _ (mret _) => apply pres_ret
  | |- preserves _ (mlift _) => apply pres_lift
  | |- preserves _ (GApp.add_entry _ _ _) => apply ids_match_add
  | |- preserves _ GApp.toggle_task_entry => apply ids_match_toggle
  | |- preserves _ (GApp.modify _) =>
      apply pres_modify; let s := fresh "s" in let Hs := fresh "Hs" in
      intros s Hs; unfold ids_match in *; cbn; exact Hs
  | |- preserves _ (if ?b then _ else _) => destruct b
  | |- preserves _ (match ?x with _ => _ end) => destruct x
  | |- preserves _ (GApp.incr_next_id) => unfold GApp.incr_next_id
  | |- preserves _ (GApp.scroll_down) => unfold GApp.scroll_down
  | |- preserves _ (GApp.scroll_up) => unfold GApp.scroll_up
  | |- preserves _ (GApp.pick_digit _) => unfold GApp.pick_digit
  | |- preserves _ (GApp.dispatch _) => unfold GApp.dispatch
  | |- preserves _ (GApp.edit_entry) => unfold GApp.edit_entry
  end.

Lemma gapp_keypress_pres key now : preserves ids_match (GApp.keypress key now).
Proof. unfold GApp.keypress. pres_tac. Qed.

(** In the tab of [gooseberry_app.rs] every sequence of keystrokes keeps
    the ids with an entry equal to the ids in [visible_ids], also when it
    stops on an error. *)
Theorem gapp_run_ids keys st st' r :
  ids_match st -> GApp.run keys st = (st', r) -> ids_match st'.
Proof.
  revert st st' r. change (preserves ids_match (GApp.run keys)).
  induction keys as [|[k now] ks IH]; cbn [GApp.run].
  - apply pres_ret.
  - apply pres_bind; [apply gapp_keypress_pres | intros _; exact IH].
Qed.

Lemma load_files_ids fs es vis es' vis' :
  GApp.load_files fs es vis = Ok (es', vis') ->
  (forall id, is_Some (es !! id) <-> In id vis) ->
  (forall id, is_Some (es' !! id) <-> In id vis')
  /\ length vis' = (length vis + length fs)%nat
  /\ (forall id, In id vis -> In id vis').
Proof.
  revert es vis. induction fs as [|f fs IH]; intros es vis E H; cbn in E.
  - injection E as <- <-. split; [exact H | split; [cbn; lia | auto]].
  - destruct (decode f) as [g| |]; cbn in E; try discriminate.
    destruct (IH _ _ E) as (H1 & H2 & H3).
    + intros id. destruct (decide (id = entry_id g)) as [->|Hne].
      * rewrite lookup_insert_eq. split; [intros _ | intros _; eauto].
        apply in_or_app. right. left. reflexivity.
      * rewrite lookup_insert_ne by congruence. rewrite H, in_app_iff. cbn.
        intuition congruence.
    + split; [exact H1|]. split.
      * rewrite H2, length_app. cbn. lia.
      * intros id Hid. apply H3. apply in_or_app. left. exact Hid.
Qed.

Lemma fold_max_ge (l : list Z) id : In id l -> id <= fold_right Z.max 0 l.
Proof.
  induction l as [|x l IH]; cbn; [tauto|]. intros [->|Hin]; [lia|]. specialize (IH Hin). lia.
Qed.

(** [GooseberryTab::from_folder] lists every loaded file's id in
    [visible_ids] (an id shared by two files twice), keeps one entry per
    listed id, and sets [next_id] above every listed id. *)
Theorem gapp_from_folder_ids t files fs st :
  GApp.from_folder t files fs = Ok st ->
  ids_match st
  /\ length (GApp.visible_ids st) = length files
  /\ Forall (fun id => id < GApp.next_id st) (GApp.visible_ids st).
Proof.
  unfold GApp.from_folder.
  destruct (GApp.load_files files empty []) as [[es vis]| |] eqn:El; cbn [rbind]; try discriminate.
  destruct (GApp.first_free_id (es, vis).2) as [nid| |] eqn:Ef; cbn [rbind]; try discriminate.
  destruct (get_input_boxes t) as [ibs| |]; cbn [rbind]; try discriminate.
  intros E. injection E as <-.
  destruct (load_files_ids _ _ _ _ _ El) as (H1 & H2 & _).
  { intros id. rewrite lookup_empty. split; [intros [? ?]; discriminate | intros []]. }
  split; [exact H1|]. split; [exact H2|]. cbn in Ef |- *.
  unfold GApp.first_free_id in Ef.
  destruct (fold_right Z.max 0 vis =? U64_MAX); [discriminate|]. injection Ef as <-.
  apply List.Forall_forall. intros id Hid. pose proof (fold_max_ge vis id Hid). lia.
Qed.

Lemma gapp_toggle_confirm_witness :
  exists st', GApp.keypress (Char 10) T1 toggle_state = (st', Ok tt)
  /\ GApp.entries st' = <[3 := toggle_entry task3]> {[3 := task3]}
  /\ st_files (GApp.folder st') = <[file_name Task 3 := encode (toggle_entry task3)]> empty
  /\ GApp.visible_ids st' = [3]
  /\ GApp.picking_entry st' = false /\ GApp.selected_entry st' = 0
  /\ GApp.picking_char st' = None.
Proof.
  apply (gapp_toggle_confirm toggle_state T1 task3); reflexivity.
Defined.
Lemma gapp_run_ids_witness :
  ids_match (fst (GApp.run (keys_at T1 [Char 110; Char 97; Ctrl 115]) browse_state)).
Proof.
  apply (gapp_run_ids (keys_at T1 [Char 110; Char 97; Ctrl 115]) browse_state _
           (snd (GApp.run (keys_at T1 [Char 110; Char 97; Ctrl 115]) browse_state))).
  - intros id. cbn. destruct (decide (id = 3)) as [->|Hne].
    + rewrite lookup_singleton_eq. split; [auto | eauto].
    + rewrite lookup_singleton_ne by congruence.
      split; [intros [? ?]; discriminate | intros [E|[]]; congruence].
  - apply surjective_pairing.
Defined.

Lemma gapp_from_folder_ids_witness :
  match GApp.from_folder Task [encode task3; encode task3] (mk_storage true empty) with
  | Ok st => ids_match st /\ length (GApp.visible_ids st) = 2%nat
             /\ Forall (fun id => id < GApp.next_id st) (GApp.visible_ids st)
  | _ => False
  end.
Proof.
  destruct (GApp.from_folder Task [encode task3; encode task3] (mk_storage true empty))
    as [st| |] eqn:E.
  - apply (gapp_from_folder_ids Task [encode task3; encode task3] (mk_storage true empty) st E).
  - vm_compute in E. discriminate.
  - vm_compute in E. discriminate.
Defined.

(** In the tab of [app.rs], 'd', an id and Enter remove the entry from the
    tab and from [visible_ids]. With a writable folder the entry's file is
    removed and ID entry mode ends; with a read-only folder the removal
    from the tab stays, but the file stays too, the error is returned and
    the picker stays armed. *)
Theorem app_delete_confirm st now e :
  App.is_writing st = false -> App.picking_char st = Some 100 ->
  App.entries st !! App.selected_entry st = Some e ->
  let id := App.selected_entry st in
  let '(st', r) := App.keypress (Char 10) now st in
  App.entries st' = delete id (App.entries st)
  /\ App.visible_ids st' = remove_item id (App.visible_ids st)
  /\ if st_writable (App.folder st) then
       r = Ok tt
       /\ st_files (App.folder st')
          = delete (file_name (App.entry_type st) id) (st_files (App.folder st))
       /\ App.picking_entry st' = false /\ App.selected_entry st' = 0
       /\ App.picking_char st' = None
     else r = Err IoError /\ App.folder st' = App.folder st
          /\ App.picking_char st' = Some 100.
Proof.
  destruct st as [t fo es vis w ibs nid [wr files] sc pc pe se ed]; cbn.
  intros -> -> He.
  unfold App.keypress, mbind, mget, mlift, mret, App.modify; cbn.
  unfold App.dispatch, App.delete_entry, mbind, mget, mlift, mret, App.modify; cbn.
  rewrite He. cbn. unfold remove_file. cbn.
  destruct wr; cbn; repeat split.
Qed.

Lemma app_delete_confirm_witness :
  let '(st', r) := App.keypress (Char 10) T1 (delete_state false) in
  App.entries st' = delete 3 {[3 := task3]} /\ App.visible_ids st' = []
  /\ r = Err IoError /\ App.folder st' = App.folder (delete_state false)
  /\ App.picking_char st' = Some 100.
Proof.
  pose proof (app_delete_confirm (delete_state false) T1 task3 eq_refl eq_refl eq_refl) as H.
  revert H. cbn zeta. destruct (App.keypress (Char 10) T1 (delete_state false)) as [st' r].
  cbn. tauto.
Defined.

(** In the tab of [gooseberry_app.rs], Esc pauses writing and 'n' resumes
    it: the form comes back with every content kept, the focus on the
    first box, and the entries and the entry being edited unchanged. *)
Theorem gapp_pause_resume st now :
  GApp.is_writing st = true -> ibs_boxes (GApp.input_boxes st) <> [] ->
  exists st1 st2,
    GApp.keypress Esc now st = (st1, Ok tt) /\ GApp.is_writing st1 = false
    /\ GApp.keypress (Char 110) now st1 = (st2, Ok tt) /\ GApp.is_writing st2 = true
    /\ focus_ok (GApp.input_boxes st2) /\ ibs_index (GApp.input_boxes st2) = 0%nat
    /\ map ib_content (ibs_boxes (GApp.input_boxes st2))
       = map ib_content (ibs_boxes (GApp.input_boxes st))
    /\ GApp.entries st2 = GApp.entries st /\ GApp.editing_id st2 = GApp.editing_id st.
Proof.
  destruct st as [t fo es vis w ibs nid fs sc pc pe se ed]; cbn. intros -> Hne.
  assert (Hne' : ibs_boxes (stop_writing ibs) <> []).
  { destruct ibs as [[|b bs] i]; cbn in *; congruence. }
  destruct (proj2 (start_writing_spec (stop_writing ibs)) Hne') as (ibs' & E & Hf & Hi & Hc).
  do 2 eexists. split.
  { unfold GApp.keypress, mbind, mget, mlift, mret, GApp.modify; cbn. reflexivity. }
  split; [reflexivity|]. split.
  { unfold GApp.keypress, mbind, mget, mlift, mret, GApp.modify; cbn. rewrite E. reflexivity. }
  cbn. split; [reflexivity|]. split; [exact Hf|]. split; [exact Hi|].
  split; [|split; reflexivity].
  rewrite Hc. unfold stop_writing. cbn. rewrite map_map. reflexivity.
Qed.

Lemma gapp_pause_resume_witness :
  exists st1 st2,
    GApp.keypress Esc T1 empty_form_state = (st1, Ok tt) /\ GApp.is_writing st1 = false
    /\ GApp.keypress (Char 110) T1 st1 = (st2, Ok tt) /\ GApp.is_writing st2 = true
    /\ focus_ok (GApp.input_boxes st2) /\ ibs_index (GApp.input_boxes st2) = 0%nat
    /\ map ib_content (ibs_boxes (GApp.input_boxes st2)) = [[]; []; []]
    /\ GApp.entries st2 = {[3 := task3]} /\ GApp.editing_id st2 = None.
Proof.
  apply (gapp_pause_resume empty_form_state T1); [reflexivity | discriminate].
Defined.


(** [from_header_lines] reports a missing Type line as such, and, for a
    known type, a missing ID line before looking at any other field. *)
Theorem from_header_lines_missing h lines :
  (header_get (txt "Type") h = None ->
   from_header_lines h lines = Err (MissingHeaderElement (txt "Type")))
  /\ (forall t, header_get (txt "Type") h = Some (entry_type_name t) ->
      header_get (txt "ID") h = None ->
      from_header_lines h lines = Err (MissingHeaderElement (txt "ID"))).
Proof.
  split.
  - intros E. unfold from_header_lines, get_elem. rewrite E. reflexivity.
  - intros t Et Ei. unfold from_header_lines, get_elem. rewrite Et. cbn [ok_or rbind].
    rewrite parse_entry_type_name. cbn [rbind].
    unfold get_id_datetime_tags, get_elem. rewrite Ei.
    destruct t; reflexivity.
Qed.


Lemma from_header_lines_missing_witness :
  from_header_lines [(txt "Type", txt "Task"); (txt "Tags", txt "x")] (txt "body")
  = Err (MissingHeaderElement (txt "ID")).
Proof.
  apply (proj2 (from_header_lines_missing [(txt "Type", txt "Task"); (txt "Tags", txt "x")]
                  (txt "body")) Task); reflexivity.
Defined.

Lemma pres_apply {S A} (P : S -> Prop) (m : M S A) s s' r :
  preserves P m -> P s -> m s = (s', r) -> P s'.
Proof. intros Hm Hs E. exact (Hm s s' r Hs E). Qed.

Ltac pres_frozen :=
  repeat match goal with
  | |- preserves _ (mbind _ _) => apply pres_bind; [|intros ?]
  | |- preserves _ mget => apply pres_get
  | |- preserves _ (mret _) => apply pres_ret
  | |- preserves _ (mlift _) => apply pres_lift
  | |- preserves _ (GApp.modify _) =>
      apply pres_modify; let s := fresh "s" in let H1 := fresh "H1" in let H2 := fresh "H2" in
      intros s [H1 H2]; split; cbn; [first [exact H1 | eexists; reflexivity] | exact H2]
  | |- preserves _ (if ?b then _ else _) => destruct b
  | |- preserves _ (match ?x with _ => _ end) => destruct x
  | |- preserves _ (GApp.add_entry _ _ _) => unfold GApp.add_entry
  | |- preserves _ (GApp.save_entry _) => unfold GApp.save_entry
  | |- preserves _ GApp.toggle_task_entry => unfold GApp.toggle_task_entry
  | |- preserves _ (GApp.scroll_down) => unfold GApp.scroll_down
  | |- preserves _ (GApp.scroll_up) => unfold GApp.scroll_up
  | |- preserves _ (GApp.pick_digit _) => unfold GApp.pick_digit
  | |- preserves _ (GApp.dispatch _) => unfold GApp.dispatch
  | |- preserves _ (GApp.edit_entry) => unfold GApp.edit_entry
  end.

Lemma gapp_keypress_frozen key now n : preserves (editing_frozen n) (GApp.keypress key now).
Proof.
  intros st st' r Hst E. unfold GApp.keypress, mbind at 1, mget in E.
  destruct Hst as [[id Hid] Hn].
  refine (pres_apply (editing_frozen n) _ st st' r _ (conj (ex_intro _ id Hid) Hn) E).
  rewrite Hid. pres_frozen.
Qed.

(** Once an entry of a tab of [gooseberry_app.rs] has been opened for
    editing, [editing_id] is never cleared, so no keystroke sequence
    advances [next_id] again: every later save, also of a form started
    with 'n', goes to an edited id. *)
Theorem gapp_run_editing_frozen keys n st st' r :
  editing_frozen n st -> GApp.run keys st = (st', r) -> editing_frozen n st'.
Proof.
  revert st st' r. change (preserves (editing_frozen n) (GApp.run keys)).
  induction keys as [|[k now] ks IH]; cbn [GApp.run].
  - apply pres_ret.
  - apply pres_bind; [apply gapp_keypress_frozen | intros _; exact IH].
Qed.

Lemma gapp_run_editing_frozen_witness :
  let st' := fst (GApp.run (keys_at T1 [Char 110; Char 97; Ctrl 115]) edited_state) in
  editing_frozen 4 st'
  /\ GApp.entries st' !! 3 = Some (GTask (mk_task 3 (txt "a") [] T1 false [[]])).
Proof.
  split.
  - apply (gapp_run_editing_frozen (keys_at T1 [Char 110; Char 97; Ctrl 115]) 4 edited_state _
             (snd (GApp.run (keys_at T1 [Char 110; Char 97; Ctrl 115]) edited_state))).
    + split; [eexists; reflexivity | reflexivity].
    + apply surjective_pairing.
  - vm_compute. reflexivity.
Defined.
